(** * Credential providers of databricks.sql.auth.authenticators

    A shallow embedding of [src/databricks/sql/auth/authenticators.py]:
    the three [CredentialsProvider] variants, the OAuth provider's
    construction and its expiry-check-and-refresh step, together with
    the properties the specification states about them.

    Python strings are modelled as Rocq [string]s holding their UTF-8
    bytes, the request-headers dictionary as a [gmap string string],
    attributes that may hold [None] as [option string], and the calls to
    the external collaborators ([get_tokens],
    [check_and_refresh_access_token], the persistence object) as oracles
    of an environment whose invocations are recorded in a trace. *)

From Stdlib Require Import String Ascii List NArith Bool Lia.
From stdpp Require Import base option list gmap strings.

Import ListNotations.
Local Open Scope string_scope.

(** ** Python built-ins used by the module *)

Module Py.

(** [s.startswith(p)]. *)
Fixpoint startswith (p s : string) : bool :=
  match p with
  | EmptyString => true
  | String a p' =>
      match s with
      | EmptyString => false
      | String b s' => if Ascii.eqb a b then startswith p' s' else false
      end
  end.

(** The characters of a string, last one first. *)
Fixpoint rev_string (acc s : string) : string :=
  match s with
  | EmptyString => acc
  | String a s' => rev_string (String a acc) s'
  end.

(** [s.endswith(p)]: [p] read backwards starts [s] read backwards. *)
Definition endswith (p s : string) : bool :=
  startswith (rev_string "" p) (rev_string "" s).

(** [sep.join(l)]. *)
Fixpoint join (sep : string) (l : list string) : string :=
  match l with
  | [] => ""
  | [x] => x
  | x :: l' => x +:+ sep +:+ join sep l'
  end.

(** [str(v)] as an f-string renders an attribute that may be [None]. *)
Definition str (v : option string) : string :=
  match v with
  | None => "None"
  | Some s => s
  end.

(** Truth value of an attribute holding [None] or a string. *)
Definition truthy (v : option string) : bool :=
  match v with
  | None => false
  | Some EmptyString => false
  | Some (String _ _) => true
  end.

(** [v is None] *)
Definition is_None (v : option string) : bool :=
  match v with
  | None => true
  | Some _ => false
  end.

End Py.

(** [base64.standard_b64encode] on the bytes of a string: three bytes
    give four digits of the standard alphabet, a last group of one or two
    bytes is padded with [=], and no line breaks are inserted. *)
Module Base64.

Definition alphabet : string :=
  "ABCDEFGHIJKLMNOPQRSTUVWXYZabcdefghijklmnopqrstuvwxyz0123456789+/".

Definition digit (n : N) : ascii :=
  match String.get (N.to_nat n) alphabet with
  | Some c => c
  | None => "="%char
  end.

Fixpoint encode (bs : list N) : string :=
  match bs with
  | [] => ""
  | [a] =>
      String (digit (a / 4)) (String (digit (a mod 4 * 16)) "==")
  | [a; b] =>
      String (digit (a / 4))
        (String (digit (a mod 4 * 16 + b / 16))
           (String (digit (b mod 16 * 4)) "="))
  | a :: b :: c :: rest =>
      String (digit (a / 4))
        (String (digit (a mod 4 * 16 + b / 16))
           (String (digit (b mod 16 * 4 + c / 64))
              (String (digit (c mod 64)) (encode rest))))
  end%N.

(** [s.encode("UTF-8")]: the string already holds its UTF-8 bytes. *)
Definition bytes_of (s : string) : list N :=
  map N_of_ascii (list_ascii_of_string s).

Definition standard_b64encode (s : string) : string := encode (bytes_of s).

End Base64.

(** ** Exceptions, tokens and the external collaborators *)

(** What a call can raise: the [AttributeError] of a method call on
    [None]; an exception of a collaborator that is an [Exception]; or
    one that is not, such as [KeyboardInterrupt] or [SystemExit], which
    derive from [BaseException] only. *)
Inductive BaseException : Type :=
  | AttributeError (msg : string)
  | CollaboratorError (msg : string)
  | Interrupt (name : string).

(** [isinstance(e, Exception)]: what [except Exception] catches. *)
Definition is_Exception (e : BaseException) : bool :=
  match e with
  | AttributeError _ | CollaboratorError _ => true
  | Interrupt _ => false
  end.

Inductive outcome (A : Type) : Type :=
  | Returns (a : A)
  | Raises (e : BaseException).
Arguments Returns {A} a.
Arguments Raises {A} e.

(** [OAuthToken(access_token, refresh_token)] of [oauth_persistence]. *)
Record OAuthToken : Type := mkOAuthToken {
  get_access_token : option string;
  get_refresh_token : option string
}.

(** A persistence object is known by its identity; what its methods do,
    and whether it counts as true, is part of the environment. *)
Record OAuthPersistence : Type := mkOAuthPersistence { persistence_id : nat }.

(** The collaborators as seen during one operation of a provider. No
    operation calls the same function or method of a collaborator
    twice, so one answer per argument tuple describes an arbitrary
    collaborator.
    [persistence_bool] is [bool(store)]: a class derived from
    [OAuthPersistence] is true unless it defines [__bool__] or
    [__len__] otherwise, as a store that is a container does while it is
    empty. Only a construction asks for it twice, before [read] and
    before the [persist] of a refresh, with no write to the store in
    between; the store is taken to answer the same both times, and
    without raising. *)
Record Env : Type := mkEnv {
  get_tokens :
    string -> string -> string -> outcome (option string * option string);
  check_and_refresh_access_token :
    string -> string -> option string -> option string ->
    outcome (option string * option string * bool);
  persistence_read : OAuthPersistence -> outcome (option OAuthToken);
  persistence_persist : OAuthPersistence -> OAuthToken -> outcome unit;
  persistence_bool : OAuthPersistence -> bool
}.

(** [if store:] for an attribute that holds [None] or an object. *)
Definition object_truthy (E : Env) (store : option OAuthPersistence) : bool :=
  match store with
  | None => false
  | Some s => persistence_bool E s
  end.

(** The observable calls of an operation, in program order. [LogError]
    is the call [logging.error(msg, arg, exc_info=True)]; the messages
    of this module have no placeholder for [arg], so what the logging
    module makes of the call is not the message, and only the call is
    recorded. *)
Inductive event : Type :=
  | CallGetTokens (hostname client_id scope : string)
  | CallCheckAndRefresh (hostname client_id : string)
      (access_token refresh_token : option string)
  | CallRead (store : OAuthPersistence)
  | CallPersist (store : OAuthPersistence) (token : OAuthToken)
  | LogError (msg : string) (arg : BaseException).

Definition is_get_tokens (ev : event) : bool :=
  match ev with CallGetTokens _ _ _ => true | _ => false end.
Definition is_check_and_refresh (ev : event) : bool :=
  match ev with CallCheckAndRefresh _ _ _ _ => true | _ => false end.
Definition is_persist (ev : event) : bool :=
  match ev with CallPersist _ _ => true | _ => false end.
Definition is_read (ev : event) : bool :=
  match ev with CallRead _ => true | _ => false end.

(** ** Methods as state transformers that may raise *)

(** A method body runs on the object [self : S], extends the trace, and
    either returns or raises. Assignments made before an exception stay:
    Python does not roll an object back. *)
Definition M (S A : Type) : Type :=
  S -> list event -> outcome A * S * list event.

Section Monad.
Context {S : Type}.

Definition ret {A} (a : A) : M S A := fun self tr => (Returns a, self, tr).

Definition bind {A B} (m : M S A) (k : A -> M S B) : M S B :=
  fun self tr =>
    match m self tr with
    | (Returns a, self', tr') => k a self' tr'
    | (Raises e, self', tr') => (Raises e, self', tr')
    end.

Definition raise {A} (e : BaseException) : M S A :=
  fun self tr => (Raises e, self, tr).

(** [try: body  except Exception as e: handler(e)]: an exception that
    is not an [Exception] passes through the statement. *)
Definition try_except {A} (body : M S A) (handler : BaseException -> M S A) : M S A :=
  fun self tr =>
    match body self tr with
    | (Returns a, self', tr') => (Returns a, self', tr')
    | (Raises e, self', tr') =>
        if is_Exception e then handler e self' tr' else (Raises e, self', tr')
    end.

Definition get_self : M S S := fun self tr => (Returns self, self, tr).

Definition modify (f : S -> S) : M S unit :=
  fun self tr => (Returns tt, f self, tr).

Definition emit (ev : event) : M S unit :=
  fun self tr => (Returns tt, self, (tr ++ [ev])%list).

(** A call to a collaborator: recorded, then answered by the oracle. *)
Definition call {A} (ev : event) (answer : outcome A) : M S A :=
  fun self tr => (answer, self, (tr ++ [ev])%list).

(** [logging.error(msg, e, exc_info=True)]: the logging module reports
    and swallows its own formatting errors, so the call returns. *)
Definition logging_error (msg : string) (e : BaseException) : M S unit :=
  emit (LogError msg e).

End Monad.

Declare Scope py_scope.
Delimit Scope py_scope with py.
Notation "x <- m ;; k" := (bind m (fun x => k))
  (at level 100, m at next level, right associativity) : py_scope.
Notation "m ;;; k" := (bind m (fun _ => k))
  (at level 100, right associativity) : py_scope.

Local Open Scope py_scope.

(** A method that also receives the caller's dictionary works on the
    pair of [self] and that dictionary. *)
Definition on_self {S H A} (m : M S A) : M (S * H) A :=
  fun st tr =>
    let '(r, self', tr') := m (fst st) tr in (r, (self', snd st), tr').

(** [request_headers[key] = value] *)
Definition setitem {S} (key value : string) : M (S * gmap string string) unit :=
  modify (fun st => (fst st, <[key := value]> (snd st))).

(** ** The credential providers *)

(** [class CredentialsProvider]: the base [add_headers] is [pass]. *)
Module CredentialsProvider.
Definition add_headers {S} : M (S * gmap string string) unit := ret tt.
End CredentialsProvider.

Module AccessTokenAuthProvider.

Record t : Type := mk { __authorization_header_value : string }.

Definition __init__ (access_token : string) : t :=
  {| __authorization_header_value := "Bearer " +:+ access_token |}.

Definition add_headers : M (t * gmap string string) unit :=
  st <- get_self ;;
  setitem "Authorization" (__authorization_header_value (fst st)).

End AccessTokenAuthProvider.

Module BasicAuthProvider.

Record t : Type := mk { __authorization_header_value : string }.

Definition __init__ (username password : string) : t :=
  let auth_credentials := username +:+ ":" +:+ password in
  let auth_credentials_base64 := Base64.standard_b64encode auth_credentials in
  {| __authorization_header_value := "Basic " +:+ auth_credentials_base64 |}.

Definition add_headers : M (t * gmap string string) unit :=
  st <- get_self ;;
  setitem "Authorization" (__authorization_header_value (fst st)).

End BasicAuthProvider.

Module DatabricksOAuthProvider.

Definition SCOPE_DELIM : string := " ".

Record t : Type := mk {
  _hostname : string;
  _scopes_as_str : string;
  _oauth_persistence : option OAuthPersistence;
  _client_id : string;
  _access_token : option string;
  _refresh_token : option string
}.

Definition set_access_token (v : option string) (self : t) : t :=
  {| _hostname := _hostname self;
     _scopes_as_str := _scopes_as_str self;
     _oauth_persistence := _oauth_persistence self;
     _client_id := _client_id self;
     _access_token := v;
     _refresh_token := _refresh_token self |}.

Definition set_refresh_token (v : option string) (self : t) : t :=
  {| _hostname := _hostname self;
     _scopes_as_str := _scopes_as_str self;
     _oauth_persistence := _oauth_persistence self;
     _client_id := _client_id self;
     _access_token := _access_token self;
     _refresh_token := v |}.

Definition _normalize_host_name (hostname : string) : string :=
  let maybe_scheme :=
    if negb (Py.startswith "https://" hostname) then "https://" else "" in
  let maybe_trailing_slash :=
    if negb (Py.endswith "/" hostname) then "/" else "" in
  maybe_scheme +:+ hostname +:+ maybe_trailing_slash.

Definition _update_token_if_expired (E : Env) : M t unit :=
  try_except
    (self <- get_self ;;
     answer <- call
       (CallCheckAndRefresh (_hostname self) (_client_id self)
          (_access_token self) (_refresh_token self))
       (check_and_refresh_access_token E (_hostname self) (_client_id self)
          (_access_token self) (_refresh_token self)) ;;
     let '(fresh_access_token, fresh_refresh_token, is_refreshed) := answer in
     if negb is_refreshed then ret tt
     else
       (modify (set_access_token fresh_access_token) ;;;
        modify (set_refresh_token fresh_refresh_token) ;;;
        self <- get_self ;;
        if object_truthy E (_oauth_persistence self) then
          let token := mkOAuthToken (_access_token self) (_refresh_token self) in
          match _oauth_persistence self with
          | Some store =>
              call (CallPersist store token) (persistence_persist E store token)
          | None =>
              raise (AttributeError "'NoneType' object has no attribute 'persist'")
          end
        else ret tt))
    (fun e =>
       logging_error "unexpected error in oauth token update" e ;;; raise e).

Definition _initial_get_token (E : Env) : M t unit :=
  try_except
    (self <- get_self ;;
     (if Py.is_None (_access_token self) || Py.is_None (_refresh_token self)
      then
        if object_truthy E (_oauth_persistence self) then
          match _oauth_persistence self with
          | Some store =>
              token <- call (CallRead store) (persistence_read E store) ;;
              match token with
              | Some token =>
                  modify (set_access_token (get_access_token token)) ;;;
                  modify (set_refresh_token (get_refresh_token token))
              | None => ret tt
              end
          | None =>
              raise (AttributeError "'NoneType' object has no attribute 'read'")
          end
        else ret tt
      else ret tt) ;;;
     self <- get_self ;;
     if Py.truthy (_access_token self) && Py.truthy (_refresh_token self)
     then _update_token_if_expired E
     else
       (answer <- call
          (CallGetTokens (_hostname self) (_client_id self) (_scopes_as_str self))
          (get_tokens E (_hostname self) (_client_id self) (_scopes_as_str self)) ;;
        let '(access_token, refresh_token) := answer in
        modify (set_access_token access_token) ;;;
        modify (set_refresh_token refresh_token) ;;;
        self <- get_self ;;
        match _oauth_persistence self with
        | Some store =>
            let token := mkOAuthToken access_token refresh_token in
            call (CallPersist store token) (persistence_persist E store token)
        | None =>
            raise (AttributeError "'NoneType' object has no attribute 'persist'")
        end))
    (fun e =>
       logging_error "unexpected error in oauth initialization" e ;;; raise e).

(** The constructor returns the object only when its body returns; an
    exception leaves the caller without an instance. *)
Definition __init__ (E : Env) (hostname : string)
    (oauth_persistence : option OAuthPersistence) (client_id : string)
    (scopes : list string) : outcome t * list event :=
  let self :=
    {| _hostname := _normalize_host_name hostname;
       _scopes_as_str := Py.join SCOPE_DELIM scopes;
       _oauth_persistence := oauth_persistence;
       _client_id := client_id;
       _access_token := None;
       _refresh_token := None |} in
  match
    try_except (_initial_get_token E)
      (fun e => logging_error "unexpected error" e ;;; raise e) self []
  with
  | (Returns _, self', tr) => (Returns self', tr)
  | (Raises e, _, tr) => (Raises e, tr)
  end.

Definition add_headers (E : Env) : M (t * gmap string string) unit :=
  on_self (_update_token_if_expired E) ;;;
  st <- get_self ;;
  setitem "Authorization" ("Bearer " +:+ Py.str (_access_token (fst st))).

End DatabricksOAuthProvider.

(** [p.add_headers(request_headers)] for [p] of any of the three
    classes: Python dispatches on the class of [p]. *)
Inductive provider : Type :=
  | StaticToken (p : AccessTokenAuthProvider.t)
  | BasicAuth (p : BasicAuthProvider.t)
  | OAuthRefreshing (p : DatabricksOAuthProvider.t).

Definition inject (E : Env) : M (provider * gmap string string) unit :=
  fun st tr =>
    match fst st with
    | StaticToken p =>
        let '(r, st', tr') := AccessTokenAuthProvider.add_headers (p, snd st) tr in
        (r, (StaticToken (fst st'), snd st'), tr')
    | BasicAuth p =>
        let '(r, st', tr') := BasicAuthProvider.add_headers (p, snd st) tr in
        (r, (BasicAuth (fst st'), snd st'), tr')
    | OAuthRefreshing p =>
        let '(r, st', tr') := DatabricksOAuthProvider.add_headers E (p, snd st) tr in
        (r, (OAuthRefreshing (fst st'), snd st'), tr')
    end.

(** ** Vocabulary of the properties *)

Import DatabricksOAuthProvider.

(** The in-memory token pair of an OAuth provider. *)
Definition token_pair (self : DatabricksOAuthProvider.t) : option string * option string :=
  (_access_token self, _refresh_token self).

(** A provider is Ready once its constructor has returned it; it stays
    Ready through every later [add_headers], whether that call returns
    or raises. *)
Inductive Ready : DatabricksOAuthProvider.t -> Prop :=
  | Ready_constructed E hostname store client_id scopes self tr :
      __init__ E hostname store client_id scopes = (Returns self, tr) ->
      Ready self
  | Ready_injected E self request_headers r self' headers' tr :
      Ready self ->
      DatabricksOAuthProvider.add_headers E (self, request_headers) [] =
        (r, (self', headers'), tr) ->
      Ready self'.

(** What [_update_token_if_expired] asks the exchange, the event that
    records the question, and the adoption of the answer. *)
Definition check_of (E : Env) (self : DatabricksOAuthProvider.t) :
    outcome (option string * option string * bool) :=
  check_and_refresh_access_token E (_hostname self) (_client_id self)
    (_access_token self) (_refresh_token self).

Definition check_event (self : DatabricksOAuthProvider.t) : event :=
  CallCheckAndRefresh (_hostname self) (_client_id self)
    (_access_token self) (_refresh_token self).

Definition adopt (a r : option string) (self : DatabricksOAuthProvider.t) :
    DatabricksOAuthProvider.t :=
  set_refresh_token r (set_access_token a self).

(** What a handler [except Exception as e: logging.error(msg, e, ...)]
    adds to the trace when [e] reaches it: the call, if [e] is an
    [Exception], and nothing otherwise. *)
Definition handled (msg : string) (e : BaseException) : list event :=
  if is_Exception e then [LogError msg e] else [].

(** The token pair the constructor holds once it has consulted the
    store: what a read returned, nothing when there is no store, when
    the store counts as false (it is then not read) or when it is empty;
    undefined when the read raised. *)
Definition pair_after_read (E : Env) (store : option OAuthPersistence) :
    option (option string * option string) :=
  match store with
  | None => Some (None, None)
  | Some s =>
      if persistence_bool E s then
        match persistence_read E s with
        | Returns (Some token) => Some (get_access_token token, get_refresh_token token)
        | Returns None => Some (None, None)
        | Raises _ => None
        end
      else Some (None, None)
  end.

Definition has_prefix (p s : string) : Prop := exists r, s = p +:+ r.
Definition has_suffix (p s : string) : Prop := exists r, s = r +:+ p.

(** [s.split(sep)] for a one-character separator, used to read a scope
    string back. *)
Fixpoint split_on (sep : ascii) (s : string) : list string :=
  match s with
  | EmptyString => [""]
  | String c s' =>
      if Ascii.eqb c sep then "" :: split_on sep s'
      else
        match split_on sep s' with
        | [] => [String c ""]
        | w :: ws => String c w :: ws
        end
  end.

Fixpoint contains_char (c : ascii) (s : string) : bool :=
  match s with
  | EmptyString => false
  | String d s' => Ascii.eqb d c || contains_char c s'
  end.

(** The specification's reading of host normalization, for comparison
    with the code: a host "has a scheme prefix" when it starts with a URI
    scheme name (a letter, then letters, digits, [+], [-] or [.])
    followed by [://]. *)
Module Spec.

Definition is_alpha (c : ascii) : bool :=
  let n := nat_of_ascii c in
  (Nat.leb 65 n && Nat.leb n 90) || (Nat.leb 97 n && Nat.leb n 122).

Definition is_scheme_char (c : ascii) : bool :=
  let n := nat_of_ascii c in
  is_alpha c || (Nat.leb 48 n && Nat.leb n 57)
  || Nat.eqb n 43 || Nat.eqb n 45 || Nat.eqb n 46.

Fixpoint scheme_then_separator (s : string) : bool :=
  match s with
  | EmptyString => false
  | String c s' =>
      if Py.startswith "://" s then true
      else if is_scheme_char c then scheme_then_separator s' else false
  end.

Definition has_scheme_prefix (s : string) : bool :=
  match s with
  | EmptyString => false
  | String c s' => is_alpha c && scheme_then_separator s'
  end.

Definition normalize_host_name (hostname : string) : string :=
  (if has_scheme_prefix hostname then "" else "https://")
  +:+ hostname
  +:+ (if Py.endswith "/" hostname then "" else "/").

End Spec.

(** ** Concrete collaborators on which the statements are exercised *)
Module Example.

Definition store : OAuthPersistence := mkOAuthPersistence 1.

(** An empty store, an exchange that hands out [A0]/[R0] and then
    finds nothing to refresh. *)
Definition quiet : Env :=
  {| get_tokens := fun _ _ _ => Returns (Some "A0", Some "R0");
     check_and_refresh_access_token := fun _ _ a r => Returns (a, r, false);
     persistence_read := fun _ => Returns None;
     persistence_persist := fun _ _ => Returns tt;
     persistence_bool := fun _ => true |}.

(** The exchange refreshes every pair to [A1]/[R1]. *)
Definition refreshing : Env :=
  {| get_tokens := fun _ _ _ => Returns (Some "A0", Some "R0");
     check_and_refresh_access_token :=
       fun _ _ _ _ => Returns (Some "A1", Some "R1", true);
     persistence_read := fun _ => Returns None;
     persistence_persist := fun _ _ => Returns tt;
     persistence_bool := fun _ => true |}.

(** As [refreshing], but the store refuses to write. *)
Definition failing_store : Env :=
  {| get_tokens := fun _ _ _ => Returns (Some "A0", Some "R0");
     check_and_refresh_access_token :=
       fun _ _ _ _ => Returns (Some "A1", Some "R1", true);
     persistence_read := fun _ => Returns None;
     persistence_persist := fun _ _ => Raises (CollaboratorError "disk full");
     persistence_bool := fun _ => true |}.

(** The exchange is unreachable. *)
Definition failing_exchange : Env :=
  {| get_tokens := fun _ _ _ => Raises (CollaboratorError "no route to host");
     check_and_refresh_access_token :=
       fun _ _ _ _ => Raises (CollaboratorError "no route to host");
     persistence_read := fun _ => Returns None;
     persistence_persist := fun _ _ => Returns tt;
     persistence_bool := fun _ => true |}.

(** The store already holds the pair [a]/[r]. *)
Definition stocked : Env :=
  {| get_tokens := fun _ _ _ => Returns (Some "A0", Some "R0");
     check_and_refresh_access_token := fun _ _ a r => Returns (a, r, false);
     persistence_read := fun _ => Returns (Some (mkOAuthToken (Some "a") (Some "r")));
     persistence_persist := fun _ _ => Returns tt;
     persistence_bool := fun _ => true |}.

(** The store holds an access token without its refresh token. *)
Definition half_stocked : Env :=
  {| get_tokens := fun _ _ _ => Returns (Some "A0", Some "R0");
     check_and_refresh_access_token := fun _ _ a r => Returns (a, r, false);
     persistence_read := fun _ => Returns (Some (mkOAuthToken (Some "a") None));
     persistence_persist := fun _ _ => Returns tt;
     persistence_bool := fun _ => true |}.

(** What [__init__ quiet "host.com" (Some store) "client" ["read"; "write"]]
    returns. *)
Definition provider : DatabricksOAuthProvider.t :=
  {| _hostname := "https://host.com/";
     _scopes_as_str := "read write";
     _oauth_persistence := Some store;
     _client_id := "client";
     _access_token := Some "A0";
     _refresh_token := Some "R0" |}.

(** A provider object whose persistence attribute is [None]. *)
Definition storeless : DatabricksOAuthProvider.t :=
  {| _hostname := "https://host.com/";
     _scopes_as_str := "read write";
     _oauth_persistence := None;
     _client_id := "client";
     _access_token := Some "A0";
     _refresh_token := Some "R0" |}.

Definition headers : gmap string string := {[ "Accept" := "*/*" ]}.

End Example.

(** Collaborators whose store counts as false, as a container that is
    still empty does: nothing was stored, the exchange hands out
    [A0]/[R0] and then finds nothing to refresh. *)
Definition falsy_quiet : Env :=
  {| get_tokens := fun _ _ _ => Returns (Some "A0", Some "R0");
     check_and_refresh_access_token := fun _ _ a r => Returns (a, r, false);
     persistence_read := fun _ => Returns None;
     persistence_persist := fun _ _ => Returns tt;
     persistence_bool := fun _ => false |}.

(** The same store, and an exchange that refreshes to [A1]/[R1]. *)
Definition falsy_refreshing : Env :=
  {| get_tokens := fun _ _ _ => Returns (Some "A0", Some "R0");
     check_and_refresh_access_token :=
       fun _ _ _ _ => Returns (Some "A1", Some "R1", true);
     persistence_read := fun _ => Returns None;
     persistence_persist := fun _ _ => Returns tt;
     persistence_bool := fun _ => false |}.

(** ** Proof automation *)

(** Unfold the methods and the monad down to matches on what the
    collaborators answer. *)
Ltac unfold_py :=
  cbv beta iota zeta delta
    [DatabricksOAuthProvider.add_headers _update_token_if_expired
     _initial_get_token __init__ on_self setitem try_except bind ret raise
     get_self modify emit call logging_error object_truthy handled fst snd].

(** Split on the scrutinee of a match, in the goal or in a hypothesis,
    and clean up the equations. *)
Ltac break_match :=
  match goal with
  | |- context [match ?x with _ => _ end] => destruct x eqn:?
  | H : context [match ?x with _ => _ end] |- _ => destruct x eqn:?
  end.

Ltac py_cases := repeat (simplify_eq/=; try break_match).

(** ** Further vocabulary *)

Definition is_log (ev : event) : bool :=
  match ev with LogError _ _ => true | _ => false end.

(** The providers that a construction with the given arguments
    returns, and what any number of [add_headers] calls make of them. *)
Inductive ReadyFrom (hostname : string) (store : option OAuthPersistence)
    (client_id : string) (scopes : list string) :
    DatabricksOAuthProvider.t -> Prop :=
  | ReadyFrom_constructed E self tr :
      __init__ E hostname store client_id scopes = (Returns self, tr) ->
      ReadyFrom hostname store client_id scopes self
  | ReadyFrom_injected E self request_headers r self' headers' tr :
      ReadyFrom hostname store client_id scopes self ->
      DatabricksOAuthProvider.add_headers E (self, request_headers) [] =
        (r, (self', headers'), tr) ->
      ReadyFrom hostname store client_id scopes self'.

(** A call to the exchange: the initial acquisition or the check. *)
Definition is_exchange (ev : event) : bool :=
  is_get_tokens ev || is_check_and_refresh ev.

(** A store whose [read] fails. *)
Definition unreadable : Env :=
  {| get_tokens := fun _ _ _ => Returns (Some "A0", Some "R0");
     check_and_refresh_access_token := fun _ _ a r => Returns (a, r, false);
     persistence_read := fun _ => Raises (CollaboratorError "permission denied");
     persistence_persist := fun _ _ => Returns tt;
     persistence_bool := fun _ => true |}.

(** The user interrupts the exchange: [get_tokens] raises
    [KeyboardInterrupt], which is not an [Exception]. *)
Definition interrupted : Env :=
  {| get_tokens := fun _ _ _ => Raises (Interrupt "KeyboardInterrupt");
     check_and_refresh_access_token :=
       fun _ _ _ _ => Raises (Interrupt "KeyboardInterrupt");
     persistence_read := fun _ => Returns None;
     persistence_persist := fun _ _ => Returns tt;
     persistence_bool := fun _ => true |}.

(** Reading a base64 string back: the position of a digit in the
    alphabet, and the bytes that four digits stand for. The providers
    never decode; this is the receiving side of the [Authorization]
    header. *)
Fixpoint b64_index (c : ascii) (s : string) (i : N) : N :=
  match s with
  | EmptyString => i
  | String d s' => if Ascii.eqb c d then i else b64_index c s' (i + 1)
  end.

Definition b64_value (c : ascii) : N := b64_index c Base64.alphabet 0.

Fixpoint b64_decode (s : string) : list N :=
  match s with
  | String c1 (String c2 (String c3 (String c4 rest))) =>
      let v1 := b64_value c1 in
      let v2 := b64_value c2 in
      let v3 := b64_value c3 in
      let v4 := b64_value c4 in
      if Ascii.eqb c3 "=" then [v1 * 4 + v2 / 16]
      else if Ascii.eqb c4 "=" then [v1 * 4 + v2 / 16; v2 mod 16 * 16 + v3 / 4]
      else v1 * 4 + v2 / 16 :: v2 mod 16 * 16 + v3 / 4 :: v3 mod 4 * 64 + v4
             :: b64_decode rest
  | _ => []
  end%N.

(** Linear arithmetic with division and remainder by constants. *)
Ltac b64_arith := zify; Z.to_euclidean_division_equations; lia.
(** * Properties *)

(** ** The built-ins compute what Python documents *)

Example b64_user_pass : Base64.standard_b64encode "user:pass" = "dXNlcjpwYXNz".
Proof. reflexivity. Qed.

Example b64_one_byte : Base64.standard_b64encode "a" = "YQ==".
Proof. reflexivity. Qed.

Example b64_two_bytes : Base64.standard_b64encode "ab" = "YWI=".
Proof. reflexivity. Qed.

Example basic_auth_header :
  BasicAuthProvider.__authorization_header_value
    (BasicAuthProvider.__init__ "user" "pass") = "Basic dXNlcjpwYXNz".
Proof. reflexivity. Qed.

Example static_token_header (token : string) :
  AccessTokenAuthProvider.__authorization_header_value
    (AccessTokenAuthProvider.__init__ token) = "Bearer " +:+ token.
Proof. reflexivity. Qed.


Lemma app_cons (x : ascii) (a b : string) : String x a +:+ b = String x (a +:+ b).
Proof. reflexivity. Qed.

Lemma app_assoc_s (a b c : string) : (a +:+ b) +:+ c = a +:+ (b +:+ c).
Proof.
  induction a as [|x a IH]; [reflexivity|].
  rewrite !app_cons, IH. reflexivity.
Qed.

Lemma app_empty_r (a : string) : a +:+ "" = a.
Proof.
  induction a as [|x a IH]; [reflexivity|].
  rewrite app_cons, IH. reflexivity.
Qed.

Lemma startswith_spec (p s : string) : Py.startswith p s = true <-> has_prefix p s.
Proof.
  revert s. induction p as [|a p IH]; intros s; simpl.
  - split; [intros _; now exists s | reflexivity].
  - destruct s as [|b s].
    + split; [discriminate | intros [r Hr]; discriminate].
    + destruct (Ascii.eqb_spec a b) as [->|Hab].
      * rewrite IH. split; intros [r Hr]; exists r.
        -- now rewrite Hr.
        -- rewrite app_cons in Hr. now injection Hr.
      * split; [discriminate | intros [r Hr]; rewrite app_cons in Hr; congruence].
Qed.

Lemma rev_string_acc (acc s : string) :
  Py.rev_string acc s = Py.rev_string "" s +:+ acc.
Proof.
  revert acc. induction s as [|a s IH]; intros acc; simpl; [reflexivity|].
  rewrite (IH (String a acc)), (IH (String a "")), app_assoc_s. reflexivity.
Qed.

Lemma rev_string_app (a b : string) :
  Py.rev_string "" (a +:+ b) = Py.rev_string "" b +:+ Py.rev_string "" a.
Proof.
  induction a as [|x a IH].
  - now rewrite app_empty_r.
  - rewrite app_cons. simpl.
    rewrite (rev_string_acc (String x "")), IH, (rev_string_acc (String x "") a).
    now rewrite app_assoc_s.
Qed.

Lemma rev_string_involutive (s : string) :
  Py.rev_string "" (Py.rev_string "" s) = s.
Proof.
  induction s as [|a s IH]; simpl; [reflexivity|].
  rewrite (rev_string_acc (String a "") s), rev_string_app, IH. reflexivity.
Qed.

Lemma endswith_spec (p s : string) : Py.endswith p s = true <-> has_suffix p s.
Proof.
  unfold Py.endswith. rewrite startswith_spec. split; intros [r Hr].
  - exists (Py.rev_string "" r).
    rewrite <- (rev_string_involutive s), Hr, rev_string_app, rev_string_involutive.
    reflexivity.
  - exists (Py.rev_string "" r). now rewrite Hr, rev_string_app.
Qed.

(** ** Host normalization *)

Lemma normalize_host_name_unfold (hostname : string) :
  _normalize_host_name hostname =
    (if Py.startswith "https://" hostname then "" else "https://")
    +:+ hostname +:+ (if Py.endswith "/" hostname then "" else "/").
Proof.
  unfold _normalize_host_name.
  destruct (Py.startswith _ _), (Py.endswith _ _); reflexivity.
Qed.

(** C2, counterexample: the host [http://host.com] has a scheme prefix,
    yet the code still puts [https://] in front of it, so the result
    differs from what "prefix exactly when there is no scheme prefix"
    gives. *)
Lemma normalize_host_name_http_counterexample :
  Spec.has_scheme_prefix "http://host.com" = true /\
  _normalize_host_name "http://host.com" = "https://http://host.com/" /\
  _normalize_host_name "http://host.com" <> Spec.normalize_host_name "http://host.com".
Proof. vm_compute. repeat split; discriminate. Qed.

(** C2, amended: host normalization is a function of the host name
    alone; its result is the host name with [https://] put in front
    exactly when the name does not start with the literal [https://],
    and with [/] put behind exactly when the name does not end with [/].
    In particular [host.com] and [https://host.com] both give
    [https://host.com/], which is itself left unchanged. *)
Theorem normalize_host_name_correct :
  (forall hostname : string,
     exists scheme slash,
       _normalize_host_name hostname = scheme +:+ hostname +:+ slash /\
       (scheme = "https://" /\ ~ has_prefix "https://" hostname \/
        scheme = "" /\ has_prefix "https://" hostname) /\
       (slash = "/" /\ ~ has_suffix "/" hostname \/
        slash = "" /\ has_suffix "/" hostname)) /\
  _normalize_host_name "host.com" = "https://host.com/" /\
  _normalize_host_name "https://host.com" = "https://host.com/" /\
  _normalize_host_name "https://host.com/" = "https://host.com/".
Proof.
  split; [|repeat split; reflexivity].
  intros hostname. rewrite normalize_host_name_unfold.
  destruct (Py.startswith "https://" hostname) eqn:Hs;
    destruct (Py.endswith "/" hostname) eqn:He;
    eexists _, _; (split; [reflexivity|]); split.
  all: try (right; split; [reflexivity|]; first [now apply startswith_spec | now apply endswith_spec]).
  all: left; split; [reflexivity|]; intros H;
    first [apply startswith_spec in H | apply endswith_spec in H]; congruence.
Qed.

(** The normal form is scheme- and slash-qualified, and normalizing it
    again changes nothing. *)
Lemma normalize_host_name_qualified (hostname : string) :
  has_prefix "https://" (_normalize_host_name hostname) /\
  has_suffix "/" (_normalize_host_name hostname).
Proof.
  rewrite normalize_host_name_unfold. split.
  - destruct (Py.startswith "https://" hostname) eqn:Hs.
    + apply startswith_spec in Hs as [r ->].
      eexists. rewrite app_assoc_s. reflexivity.
    + eexists. reflexivity.
  - destruct (Py.endswith "/" hostname) eqn:He.
    + apply endswith_spec in He as [r ->].
      exists ((if Py.startswith "https://" (r +:+ "/") then "" else "https://") +:+ r).
      now rewrite app_empty_r, app_assoc_s.
    + exists ((if Py.startswith "https://" hostname then "" else "https://") +:+ hostname).
      now rewrite app_assoc_s.
Qed.

Lemma normalize_host_name_idempotent (hostname : string) :
  _normalize_host_name (_normalize_host_name hostname) = _normalize_host_name hostname.
Proof.
  destruct (normalize_host_name_qualified hostname) as [Hp Hs].
  apply startswith_spec in Hp. apply endswith_spec in Hs.
  rewrite (normalize_host_name_unfold (_normalize_host_name hostname)), Hp, Hs.
  now rewrite app_empty_r.
Qed.

(** ** The refresh step, case by case *)

Lemma update_raises E self tr e :
  check_of E self = Raises e ->
  _update_token_if_expired E self tr =
    (Raises e, self,
     (tr ++ [check_event self]) ++
     handled "unexpected error in oauth token update" e)%list.
Proof.
  unfold check_of, handled. intros H. unfold_py. rewrite H.
  destruct (is_Exception e); simpl; now rewrite ?app_nil_r.
Qed.

Lemma update_not_refreshed E self tr a r :
  check_of E self = Returns (a, r, false) ->
  _update_token_if_expired E self tr = (Returns tt, self, (tr ++ [check_event self])%list).
Proof. unfold check_of. intros H. unfold_py. rewrite H. reflexivity. Qed.

Lemma update_refreshed_no_store E self tr a r :
  check_of E self = Returns (a, r, true) ->
  object_truthy E (_oauth_persistence self) = false ->
  _update_token_if_expired E self tr =
    (Returns tt, adopt a r self, (tr ++ [check_event self])%list).
Proof.
  unfold check_of, object_truthy. intros H Hs. unfold_py. rewrite H. simpl.
  rewrite Hs. reflexivity.
Qed.

Lemma update_refreshed_store E self tr a r store :
  check_of E self = Returns (a, r, true) ->
  _oauth_persistence self = Some store ->
  persistence_bool E store = true ->
  _update_token_if_expired E self tr =
    match persistence_persist E store (mkOAuthToken a r) with
    | Returns _ =>
        (Returns tt, adopt a r self,
         (tr ++ [check_event self]) ++ [CallPersist store (mkOAuthToken a r)])
    | Raises e =>
        (Raises e, adopt a r self,
         ((tr ++ [check_event self]) ++ [CallPersist store (mkOAuthToken a r)])
         ++ handled "unexpected error in oauth token update" e)
    end%list.
Proof.
  unfold check_of, handled. intros H Hs Hb. unfold_py. rewrite H. simpl.
  rewrite Hs, Hb. simpl.
  destruct (persistence_persist E store _) as [[]|e]; [reflexivity|].
  destruct (is_Exception e); simpl; now rewrite ?app_nil_r.
Qed.

(** The same four cases, told apart. *)
Lemma update_cases E self tr :
  (exists e, check_of E self = Raises e /\
     _update_token_if_expired E self tr =
       (Raises e, self,
        (tr ++ [check_event self]) ++
        handled "unexpected error in oauth token update" e)%list) \/
  (exists a r, check_of E self = Returns (a, r, false) /\
     _update_token_if_expired E self tr =
       (Returns tt, self, (tr ++ [check_event self])%list)) \/
  (exists a r, check_of E self = Returns (a, r, true) /\
     object_truthy E (_oauth_persistence self) = false /\
     _update_token_if_expired E self tr =
       (Returns tt, adopt a r self, (tr ++ [check_event self])%list)) \/
  (exists a r store, check_of E self = Returns (a, r, true) /\
     _oauth_persistence self = Some store /\
     persistence_bool E store = true /\
     (persistence_persist E store (mkOAuthToken a r) = Returns tt /\
      _update_token_if_expired E self tr =
        (Returns tt, adopt a r self,
         (tr ++ [check_event self]) ++ [CallPersist store (mkOAuthToken a r)])%list
      \/
      exists e, persistence_persist E store (mkOAuthToken a r) = Raises e /\
        _update_token_if_expired E self tr =
          (Raises e, adopt a r self,
           ((tr ++ [check_event self]) ++ [CallPersist store (mkOAuthToken a r)])
           ++ handled "unexpected error in oauth token update" e)%list)).
Proof.
  destruct (check_of E self) as [[[a r] [|]]|e] eqn:Hc.
  - destruct (_oauth_persistence self) as [store|] eqn:Hs.
    + destruct (persistence_bool E store) eqn:Hb.
      * right; right; right. exists a, r, store. do 3 (split; [reflexivity || assumption|]).
        rewrite (update_refreshed_store _ _ _ _ _ _ Hc Hs Hb).
        destruct (persistence_persist E store _) as [[]|e]; eauto.
      * right; right; left. exists a, r. split; [reflexivity|].
        assert (Hf : object_truthy E (_oauth_persistence self) = false)
          by (rewrite Hs; exact Hb).
        split; [rewrite <- Hs; exact Hf|].
        now rewrite (update_refreshed_no_store _ _ _ _ _ Hc Hf).
    + right; right; left. exists a, r. split; [reflexivity|].
      assert (Hf : object_truthy E (_oauth_persistence self) = false)
        by (rewrite Hs; reflexivity).
      split; [rewrite <- Hs; exact Hf|].
      now rewrite (update_refreshed_no_store _ _ _ _ _ Hc Hf).
  - right; left. exists a, r. split; [reflexivity|].
    now rewrite (update_not_refreshed _ _ _ _ _ Hc).
  - left. exists e. split; [reflexivity|].
    now rewrite (update_raises _ _ _ _ Hc).
Qed.

Lemma add_headers_oauth E self h tr :
  DatabricksOAuthProvider.add_headers E (self, h) tr =
    match _update_token_if_expired E self tr with
    | (Returns _, self', tr') =>
        (Returns tt,
         (self', <["Authorization" := "Bearer " +:+ Py.str (_access_token self')]> h),
         tr')
    | (Raises e, self', tr') => (Raises e, (self', h), tr')
    end.
Proof.
  unfold DatabricksOAuthProvider.add_headers, bind, on_self, get_self, setitem, modify.
  simpl. destruct (_update_token_if_expired E self tr) as [[[[]|e] self'] tr']; reflexivity.
Qed.

(** The refresh step only ever assigns the two token attributes. *)
Lemma update_frame E self tr r self' tr' :
  _update_token_if_expired E self tr = (r, self', tr') ->
  _hostname self' = _hostname self /\
  _scopes_as_str self' = _scopes_as_str self /\
  _oauth_persistence self' = _oauth_persistence self /\
  _client_id self' = _client_id self.
Proof.
  destruct (update_cases E self tr)
    as [(e & _ & ->)|[(a & r0 & _ & ->)|[(a & r0 & _ & _ & ->)
       |(a & r0 & store & _ & _ & _ & [[_ ->]|(e & _ & ->)])]]];
    intros [= <- <- <-]; auto.
Qed.

Lemma initial_get_token_frame E self tr r self' tr' :
  _initial_get_token E self tr = (r, self', tr') ->
  _hostname self' = _hostname self /\
  _scopes_as_str self' = _scopes_as_str self /\
  _oauth_persistence self' = _oauth_persistence self /\
  _client_id self' = _client_id self.
Proof.
  unfold_py. intros H. py_cases.
  all: auto.
Qed.

(** ** Construction without a persistence object *)

Lemma init_without_store E hostname client_id scopes :
  exists e tr, __init__ E hostname None client_id scopes = (Raises e, tr).
Proof.
  unfold_py. simpl.
  destruct (get_tokens E _ _ _) as [[a r]|e]; simpl.
  - do 2 eexists. reflexivity.
  - destruct (is_Exception e) eqn:He; simpl; rewrite ?He; do 2 eexists; reflexivity.
Qed.

(** Every Ready provider holds a persistence object: construction
    cannot return without one. *)
Lemma Ready_has_store self : Ready self -> exists store, _oauth_persistence self = Some store.
Proof.
  induction 1 as [E hostname store client_id scopes self tr Hinit
                 |E self h r self' h' tr _ [store IH] Hadd].
  - destruct store as [store|].
    + exists store. revert Hinit. unfold __init__.
      destruct (try_except _ _ _ _) as [[[[]|e] self1] tr1] eqn:Hrun; [|discriminate].
      intros [= <- <-]. revert Hrun. unfold try_except at 1.
      destruct (_initial_get_token E _ _) as [[[[]|e] self2] tr2] eqn:Hrun.
      * intros [= <- <-].
        apply initial_get_token_frame in Hrun as (_ & _ & Hs & _). exact Hs.
      * destruct (is_Exception e); discriminate.
    + destruct (init_without_store E hostname client_id scopes) as (e & tr' & He).
      congruence.
  - exists store. rewrite add_headers_oauth in Hadd.
    destruct (_update_token_if_expired E self []) as [[r0 self0] tr0] eqn:Hupd.
    apply update_frame in Hupd as (_ & _ & Hs & _).
    destruct r0; injection Hadd as <- <- <- <-; congruence.
Qed.

(** ** The expiry check during [add_headers] *)

Lemma example_provider_constructed :
  __init__ Example.quiet "host.com" (Some Example.store) "client" ["read"; "write"] =
    (Returns Example.provider,
     [CallRead Example.store;
      CallGetTokens "https://host.com/" "client" "read write";
      CallPersist Example.store (mkOAuthToken (Some "A0") (Some "R0"))]).
Proof. reflexivity. Qed.

(** C5: when [check_and_refresh_access_token] reports that it did not
    refresh, [add_headers] on a Ready provider leaves the in-memory
    token pair (indeed the whole provider) as it was, calls [persist]
    not at all, and installs the unchanged access token. *)
Theorem inject_not_refreshed_keeps_state E self (h : gmap string string) a r :
  Ready self ->
  check_of E self = Returns (a, r, false) ->
  exists self' tr,
    DatabricksOAuthProvider.add_headers E (self, h) [] =
      (Returns tt,
       (self', <["Authorization" := "Bearer " +:+ Py.str (_access_token self)]> h),
       tr) /\
    self' = self /\
    token_pair self' = token_pair self /\
    List.filter is_persist tr = [].
Proof.
  intros _ Hc. exists self, [check_event self].
  rewrite add_headers_oauth, (update_not_refreshed _ _ _ _ _ Hc).
  repeat split; reflexivity.
Qed.

Lemma inject_not_refreshed_keeps_state_witness :
  exists self' tr,
    DatabricksOAuthProvider.add_headers Example.quiet
      (Example.provider, Example.headers) [] =
      (Returns tt,
       (self', <["Authorization" := "Bearer " +:+ Py.str (_access_token Example.provider)]>
                 Example.headers),
       tr) /\
    self' = Example.provider /\
    token_pair self' = token_pair Example.provider /\
    List.filter is_persist tr = [].
Proof.
  apply (inject_not_refreshed_keeps_state Example.quiet Example.provider
           Example.headers (Some "A0") (Some "R0")).
  - exact (Ready_constructed Example.quiet "host.com" (Some Example.store) "client"
             ["read"; "write"] _ _ eq_refl).
  - reflexivity.
Defined.

Lemma filter_handled (f : event -> bool) (l : list event) msg e :
  f (LogError msg e) = false ->
  List.filter f (l ++ handled msg e) = List.filter f l.
Proof.
  intros Hf. unfold handled. destruct (is_Exception e).
  - rewrite List.filter_app. simpl. rewrite Hf. apply app_nil_r.
  - now rewrite app_nil_r.
Qed.

(** C4, counterexample: a provider constructed with a persistence
    object that counts as false (the store is not read, the acquired
    pair is persisted, the constructor returns) is Ready; when the
    exchange then reports a refresh to [A1]/[R1], [add_headers] adopts
    the pair and installs [Bearer A1], but calls [persist] not at all. *)
Lemma inject_refresh_falsy_store_counterexample :
  __init__ falsy_quiet "host.com" (Some Example.store) "client" ["read"; "write"] =
    (Returns Example.provider,
     [CallGetTokens "https://host.com/" "client" "read write";
      CallPersist Example.store (mkOAuthToken (Some "A0") (Some "R0"))]) /\
  Ready Example.provider /\
  check_of falsy_refreshing Example.provider = Returns (Some "A1", Some "R1", true) /\
  exists self' tr,
    DatabricksOAuthProvider.add_headers falsy_refreshing
      (Example.provider, Example.headers) [] =
      (Returns tt, (self', <["Authorization" := "Bearer A1"]> Example.headers), tr) /\
    token_pair self' = (Some "A1", Some "R1") /\
    List.filter is_persist tr = [].
Proof.
  split; [reflexivity|]. split.
  - exact (Ready_constructed falsy_quiet "host.com" (Some Example.store) "client"
             ["read"; "write"] _ _ eq_refl).
  - split; [reflexivity|]. do 2 eexists. split; [reflexivity|]. split; reflexivity.
Qed.

(** C4, amended: when [check_and_refresh_access_token] reports a
    refresh with a new pair, [add_headers] on a Ready provider adopts
    that pair. If the provider's persistence object counts as true,
    [persist] is called exactly once, with the new pair; if it counts
    as false, [persist] is not called. The write having returned, or
    not having been attempted, the call installs [Bearer] followed by
    the new access token; the next [add_headers] asks the exchange about
    the new pair and, told that nothing was refreshed, installs the new
    access token again. *)
Theorem inject_refreshed_adopts_and_persists E self (h : gmap string string) a r :
  Ready self ->
  check_of E self = Returns (a, r, true) ->
  exists store res self' h' tr,
    DatabricksOAuthProvider.add_headers E (self, h) [] = (res, (self', h'), tr) /\
    _oauth_persistence self = Some store /\
    token_pair self' = (a, r) /\
    List.filter is_persist tr =
      (if persistence_bool E store
       then [CallPersist store (mkOAuthToken a r)] else []) /\
    (persistence_bool E store = false \/
     persistence_persist E store (mkOAuthToken a r) = Returns tt ->
     res = Returns tt /\ h' = <["Authorization" := "Bearer " +:+ Py.str a]> h) /\
    (forall E' (h2 : gmap string string) a2 r2,
       check_and_refresh_access_token E' (_hostname self) (_client_id self) a r =
         Returns (a2, r2, false) ->
       exists tr2,
         DatabricksOAuthProvider.add_headers E' (self', h2) [] =
           (Returns tt, (self', <["Authorization" := "Bearer " +:+ Py.str a]> h2), tr2) /\
         List.filter is_check_and_refresh tr2 =
           [CallCheckAndRefresh (_hostname self) (_client_id self) a r]).
Proof.
  intros Hready Hc. destruct (Ready_has_store self Hready) as [store Hs].
  exists store. rewrite add_headers_oauth.
  assert (Hnext : forall E' (h2 : gmap string string) a2 r2,
    check_and_refresh_access_token E' (_hostname self) (_client_id self) a r =
      Returns (a2, r2, false) ->
    exists tr2,
      DatabricksOAuthProvider.add_headers E' (adopt a r self, h2) [] =
        (Returns tt,
         (adopt a r self, <["Authorization" := "Bearer " +:+ Py.str a]> h2), tr2) /\
      List.filter is_check_and_refresh tr2 =
        [CallCheckAndRefresh (_hostname self) (_client_id self) a r]).
  { intros E' h2 a2 r2 Hc2. eexists.
    rewrite add_headers_oauth, (update_not_refreshed E' (adopt a r self) [] a2 r2 Hc2).
    split; reflexivity. }
  destruct (persistence_bool E store) eqn:Hb.
  - rewrite (update_refreshed_store _ _ _ _ _ _ Hc Hs Hb).
    destruct (persistence_persist E store _) as [[]|e] eqn:Hp;
      do 4 eexists; (split; [reflexivity|]);
      (split; [exact Hs|]); (split; [reflexivity|]);
      (split; [|split; [|exact Hnext]]).
    + reflexivity.
    + intros _. split; reflexivity.
    + now rewrite filter_handled.
    + intros [[=]|[=]].
  - assert (Hf : object_truthy E (_oauth_persistence self) = false)
      by (rewrite Hs; exact Hb).
    rewrite (update_refreshed_no_store _ _ _ _ _ Hc Hf).
    do 4 eexists. split; [reflexivity|].
    split; [exact Hs|]. split; [reflexivity|]. split; [reflexivity|].
    split; [|exact Hnext]. intros _. split; reflexivity.
Qed.

Lemma inject_refreshed_adopts_and_persists_witness :
  exists store res self' h' tr,
    DatabricksOAuthProvider.add_headers Example.refreshing
      (Example.provider, Example.headers) [] = (res, (self', h'), tr) /\
    _oauth_persistence Example.provider = Some store /\
    token_pair self' = (Some "A1", Some "R1") /\
    List.filter is_persist tr =
      (if persistence_bool Example.refreshing store
       then [CallPersist store (mkOAuthToken (Some "A1") (Some "R1"))] else []) /\
    (persistence_bool Example.refreshing store = false \/
     persistence_persist Example.refreshing store
       (mkOAuthToken (Some "A1") (Some "R1")) = Returns tt ->
     res = Returns tt /\
     h' = <["Authorization" := "Bearer " +:+ Py.str (Some "A1")]> Example.headers) /\
    (forall E' (h2 : gmap string string) a2 r2,
       check_and_refresh_access_token E' (_hostname Example.provider)
         (_client_id Example.provider) (Some "A1") (Some "R1") =
         Returns (a2, r2, false) ->
       exists tr2,
         DatabricksOAuthProvider.add_headers E' (self', h2) [] =
           (Returns tt,
            (self', <["Authorization" := "Bearer " +:+ Py.str (Some "A1")]> h2), tr2) /\
         List.filter is_check_and_refresh tr2 =
           [CallCheckAndRefresh (_hostname Example.provider)
              (_client_id Example.provider) (Some "A1") (Some "R1")]).
Proof.
  apply (inject_refreshed_adopts_and_persists Example.refreshing Example.provider
           Example.headers (Some "A1") (Some "R1")).
  - exact (Ready_constructed Example.quiet "host.com" (Some Example.store) "client"
             ["read"; "write"] _ _ eq_refl).
  - reflexivity.
Defined.

(** C1, counterexample: on a Ready provider holding [A0]/[R0], the
    exchange refreshes to [A1]/[R1] and the store then fails to write.
    [add_headers] raises the store's error, the caller's headers are
    untouched, but the provider now holds [A1]/[R1]: the pair is not at
    its value from before the call. *)
Lemma inject_persist_failure_counterexample :
  Ready Example.provider /\
  exists e self' tr,
    DatabricksOAuthProvider.add_headers Example.failing_store
      (Example.provider, Example.headers) [] =
      (Raises e, (self', Example.headers), tr) /\
    persistence_persist Example.failing_store Example.store
      (mkOAuthToken (Some "A1") (Some "R1")) = Raises e /\
    List.filter is_persist tr =
      [CallPersist Example.store (mkOAuthToken (Some "A1") (Some "R1"))] /\
    token_pair Example.provider = (Some "A0", Some "R0") /\
    token_pair self' = (Some "A1", Some "R1") /\
    token_pair self' <> token_pair Example.provider.
Proof.
  split.
  - exact (Ready_constructed Example.quiet "host.com" (Some Example.store) "client"
             ["read"; "write"] _ _ eq_refl).
  - do 3 eexists. split; [reflexivity|]. repeat split; discriminate.
Qed.

(** C1, amended: every failure of the refresh step of [add_headers] on
    a Ready provider reaches the caller, and the caller's headers are
    then untouched. If it is [check_and_refresh_access_token] that
    raises, the in-memory token pair is exactly its value from before
    the call. If the exchange reported a refresh and it is [persist]
    that raises, the provider has already adopted the refreshed pair,
    both fields together. [add_headers] raises in no other way. *)
Theorem inject_failure_propagates E self (h : gmap string string) res self' h' tr :
  Ready self ->
  DatabricksOAuthProvider.add_headers E (self, h) [] = (res, (self', h'), tr) ->
  (forall e, check_of E self = Raises e ->
     res = Raises e /\ token_pair self' = token_pair self /\ h' = h) /\
  (forall a r store e,
     check_of E self = Returns (a, r, true) ->
     _oauth_persistence self = Some store ->
     persistence_bool E store = true ->
     persistence_persist E store (mkOAuthToken a r) = Raises e ->
     res = Raises e /\ token_pair self' = (a, r) /\ h' = h) /\
  (forall e, res = Raises e ->
     check_of E self = Raises e \/
     exists a r store,
       check_of E self = Returns (a, r, true) /\
       _oauth_persistence self = Some store /\
       persistence_bool E store = true /\
       persistence_persist E store (mkOAuthToken a r) = Raises e).
Proof.
  intros _ Hrun. rewrite add_headers_oauth in Hrun.
  destruct (update_cases E self [])
    as [(e & Hc & Hu)|[(a & r & Hc & Hu)|[(a & r & Hc & Hf & Hu)
       |(a & r & store & Hc & Hs & Hb & [[Hp Hu]|(e & Hp & Hu)])]]];
    rewrite Hu in Hrun; injection Hrun as <- <- <- <-; rewrite Hc.
  - split; [|split].
    + intros e' [= <-]. repeat split.
    + intros a' r' store' e' [=].
    + intros e' [= <-]. now left.
  - split; [discriminate|]. split; [|discriminate].
    intros a' r' store' e' [=].
  - split; [discriminate|]. split; [|discriminate].
    intros a' r' store' e' _ Hs' Hb'. rewrite Hs' in Hf. simpl in Hf. congruence.
  - split; [discriminate|]. split; [|discriminate].
    intros a' r' store' e' [= <- <-] Hs'. rewrite Hs in Hs'.
    injection Hs' as <-. congruence.
  - split; [discriminate|]. split.
    + intros a' r' store' e' [= <- <-] Hs'. rewrite Hs in Hs'.
      injection Hs' as <-. intros _ He. rewrite Hp in He. injection He as <-.
      repeat split.
    + intros e' [= <-]. right. exists a, r, store. auto.
Qed.

Lemma inject_failure_propagates_witness :
  (forall e, check_of Example.failing_exchange Example.provider = Raises e ->
     Raises (A := unit) (CollaboratorError "no route to host") = Raises e /\
     token_pair Example.provider = token_pair Example.provider /\
     Example.headers = Example.headers) /\
  (forall a r store e,
     check_of Example.failing_exchange Example.provider = Returns (a, r, true) ->
     _oauth_persistence Example.provider = Some store ->
     persistence_bool Example.failing_exchange store = true ->
     persistence_persist Example.failing_exchange store (mkOAuthToken a r) = Raises e ->
     Raises (A := unit) (CollaboratorError "no route to host") = Raises e /\
     token_pair Example.provider = (a, r) /\ Example.headers = Example.headers) /\
  (forall e, Raises (A := unit) (CollaboratorError "no route to host") = Raises e ->
     check_of Example.failing_exchange Example.provider = Raises e \/
     exists a r store,
       check_of Example.failing_exchange Example.provider = Returns (a, r, true) /\
       _oauth_persistence Example.provider = Some store /\
       persistence_bool Example.failing_exchange store = true /\
       persistence_persist Example.failing_exchange store (mkOAuthToken a r) = Raises e).
Proof.
  apply (inject_failure_propagates Example.failing_exchange Example.provider
           Example.headers (Raises (CollaboratorError "no route to host"))
           Example.provider Example.headers
           [check_event Example.provider;
            LogError "unexpected error in oauth token update"
              (CollaboratorError "no route to host")]).
  - exact (Ready_constructed Example.quiet "host.com" (Some Example.store) "client"
             ["read"; "write"] _ _ eq_refl).
  - reflexivity.
Defined.

(** ** Construction *)

(** C3: when the pair available after reading the store is incomplete
    (the access token or the refresh token is absent, or empty, which
    the code treats alike), construction calls [get_tokens] exactly
    once, with the normalized host, the client id and the scope string,
    and never calls [check_and_refresh_access_token]. *)
Theorem incomplete_pair_forces_acquisition E hostname store client_id scopes a r :
  pair_after_read E store = Some (a, r) ->
  a = None \/ r = None \/ a = Some "" \/ r = Some "" ->
  List.filter is_get_tokens (__init__ E hostname store client_id scopes).2 =
    [CallGetTokens (_normalize_host_name hostname) client_id
       (Py.join SCOPE_DELIM scopes)] /\
  List.filter is_check_and_refresh (__init__ E hostname store client_id scopes).2 = [].
Proof.
  unfold pair_after_read. intros Hread Hinc.
  assert (Hf : Py.truthy a && Py.truthy r = false).
  { destruct Hinc as [-> | [-> | [-> | ->]]]; simpl; auto using andb_false_r.
    all: destruct a as [[|? ?]|]; reflexivity. }
  unfold_py. simpl.
  destruct store as [store|]; simpl.
  - destruct (persistence_bool E store); simpl.
    + destruct (persistence_read E store) as [[token|]|e]; simplify_eq/=.
      * rewrite Hf. py_cases; auto.
      * py_cases; auto.
    + py_cases; auto.
  - py_cases; auto.
Qed.

Lemma incomplete_pair_forces_acquisition_witness :
  List.filter is_get_tokens
    (__init__ Example.half_stocked "host.com" (Some Example.store) "client"
       ["read"; "write"]).2 =
    [CallGetTokens (_normalize_host_name "host.com") "client"
       (Py.join SCOPE_DELIM ["read"; "write"])] /\
  List.filter is_check_and_refresh
    (__init__ Example.half_stocked "host.com" (Some Example.store) "client"
       ["read"; "write"]).2 = [].
Proof.
  apply (incomplete_pair_forces_acquisition Example.half_stocked "host.com"
           (Some Example.store) "client" ["read"; "write"] (Some "a") None).
  - reflexivity.
  - right. left. reflexivity.
Defined.

(** Construction when nothing is adopted from the store: the store is
    read only if there is one and it counts as true, then the exchange
    acquires and the pair is persisted, with no test of the store. *)
Lemma init_fresh E hostname store client_id scopes :
  pair_after_read E store = Some (None, None) ->
  __init__ E hostname store client_id scopes =
    let host := _normalize_host_name hostname in
    let scope := Py.join SCOPE_DELIM scopes in
    let acquire := CallGetTokens host client_id scope in
    let pre :=
      match store with
      | Some s => if persistence_bool E s then [CallRead s] else []
      | None => []
      end in
    match get_tokens E host client_id scope with
    | Raises e =>
        (Raises e,
         pre ++ [acquire] ++
         handled "unexpected error in oauth initialization" e ++
         handled "unexpected error" e)
    | Returns (a, r) =>
        match store with
        | None =>
            let e := AttributeError "'NoneType' object has no attribute 'persist'" in
            (Raises e,
             pre ++ [acquire; LogError "unexpected error in oauth initialization" e;
                     LogError "unexpected error" e])
        | Some s =>
            match persistence_persist E s (mkOAuthToken a r) with
            | Returns _ =>
                (Returns
                   {| _hostname := host; _scopes_as_str := scope;
                      _oauth_persistence := Some s; _client_id := client_id;
                      _access_token := a; _refresh_token := r |},
                 pre ++ [acquire; CallPersist s (mkOAuthToken a r)])
            | Raises e =>
                (Raises e,
                 pre ++ [acquire; CallPersist s (mkOAuthToken a r)] ++
                 handled "unexpected error in oauth initialization" e ++
                 handled "unexpected error" e)
            end
        end
    end%list.
Proof.
  unfold pair_after_read. intros Hread. unfold_py. simpl.
  destruct store as [s|]; simpl.
  - destruct (persistence_bool E s); simpl.
    + destruct (persistence_read E s) as [[[ta tr]|]|e0]; simplify_eq/=.
      * destruct (get_tokens E _ _ _) as [[a r]|e]; simpl.
        -- destruct (persistence_persist E s _) as [[]|e]; simpl; [reflexivity|].
           destruct (is_Exception e) eqn:He; simpl; rewrite ?He; reflexivity.
        -- destruct (is_Exception e) eqn:He; simpl; rewrite ?He; reflexivity.
      * destruct (get_tokens E _ _ _) as [[a r]|e]; simpl.
        -- destruct (persistence_persist E s _) as [[]|e]; simpl; [reflexivity|].
           destruct (is_Exception e) eqn:He; simpl; rewrite ?He; reflexivity.
        -- destruct (is_Exception e) eqn:He; simpl; rewrite ?He; reflexivity.
    + destruct (get_tokens E _ _ _) as [[a r]|e]; simpl.
      * destruct (persistence_persist E s _) as [[]|e]; simpl; [reflexivity|].
        destruct (is_Exception e) eqn:He; simpl; rewrite ?He; reflexivity.
      * destruct (is_Exception e) eqn:He; simpl; rewrite ?He; reflexivity.
  - destruct (get_tokens E _ _ _) as [[a r]|e]; simpl; [reflexivity|].
    destruct (is_Exception e) eqn:He; simpl; rewrite ?He; reflexivity.
Qed.

Lemma read_none_nothing_adopted E store :
  persistence_read E store = Returns None ->
  pair_after_read E (Some store) = Some (None, None).
Proof.
  intros Hread. unfold pair_after_read. rewrite Hread.
  now destruct (persistence_bool E store).
Qed.

(** C6: when the store's read returns no token, construction calls
    [get_tokens] exactly once; the pair it returns is the one handed to
    [persist], in the only [persist] call; and, that write having
    returned, construction returns a provider holding the pair, whose
    first [add_headers], told by the exchange that nothing was
    refreshed, installs [Bearer] followed by the acquired access
    token. *)
Theorem empty_store_acquires_once E hostname store client_id scopes :
  persistence_read E store = Returns None ->
  List.filter is_get_tokens (__init__ E hostname (Some store) client_id scopes).2 =
    [CallGetTokens (_normalize_host_name hostname) client_id
       (Py.join SCOPE_DELIM scopes)] /\
  forall a r,
    get_tokens E (_normalize_host_name hostname) client_id
      (Py.join SCOPE_DELIM scopes) = Returns (a, r) ->
    List.filter is_persist (__init__ E hostname (Some store) client_id scopes).2 =
      [CallPersist store (mkOAuthToken a r)] /\
    (persistence_persist E store (mkOAuthToken a r) = Returns tt ->
     exists self,
       (__init__ E hostname (Some store) client_id scopes).1 = Returns self /\
       token_pair self = (a, r) /\
       forall E' (h : gmap string string) a2 r2,
         check_of E' self = Returns (a2, r2, false) ->
         exists tr,
           DatabricksOAuthProvider.add_headers E' (self, h) [] =
             (Returns tt, (self, <["Authorization" := "Bearer " +:+ Py.str a]> h), tr)).
Proof.
  intros Hread.
  rewrite (init_fresh _ _ _ _ _ (read_none_nothing_adopted _ _ Hread)). cbv zeta.
  destruct (get_tokens E _ _ _) as [[a r]|e] eqn:Hg.
  - split.
    + destruct (persistence_bool E store);
        destruct (persistence_persist E store _) as [[]|e]; try reflexivity;
        unfold handled; destruct (is_Exception e); reflexivity.
    + intros a' r' [= <- <-]. split.
      * destruct (persistence_bool E store);
          destruct (persistence_persist E store _) as [[]|e]; try reflexivity;
          unfold handled; destruct (is_Exception e); reflexivity.
      * intros ->. eexists. split; [reflexivity|]. split; [reflexivity|].
        intros E' h a2 r2 Hc. eexists.
        rewrite add_headers_oauth, (update_not_refreshed _ _ _ _ _ Hc). reflexivity.
  - split; [|intros a r [=]].
    destruct (persistence_bool E store); unfold handled;
      destruct (is_Exception e); reflexivity.
Qed.

Lemma empty_store_acquires_once_witness :
  List.filter is_get_tokens
    (__init__ Example.quiet "host.com" (Some Example.store) "client" ["read"; "write"]).2 =
    [CallGetTokens (_normalize_host_name "host.com") "client"
       (Py.join SCOPE_DELIM ["read"; "write"])] /\
  forall a r,
    get_tokens Example.quiet (_normalize_host_name "host.com") "client"
      (Py.join SCOPE_DELIM ["read"; "write"]) = Returns (a, r) ->
    List.filter is_persist
      (__init__ Example.quiet "host.com" (Some Example.store) "client"
         ["read"; "write"]).2 =
      [CallPersist Example.store (mkOAuthToken a r)] /\
    (persistence_persist Example.quiet Example.store (mkOAuthToken a r) = Returns tt ->
     exists self,
       (__init__ Example.quiet "host.com" (Some Example.store) "client"
          ["read"; "write"]).1 = Returns self /\
       token_pair self = (a, r) /\
       forall E' (h : gmap string string) a2 r2,
         check_of E' self = Returns (a2, r2, false) ->
         exists tr,
           DatabricksOAuthProvider.add_headers E' (self, h) [] =
             (Returns tt, (self, <["Authorization" := "Bearer " +:+ Py.str a]> h), tr)).
Proof.
  apply (empty_store_acquires_once Example.quiet "host.com" Example.store "client"
           ["read"; "write"]).
  reflexivity.
Defined.

(** C7: when the [get_tokens] call of a construction raises, the
    constructor raises that same exception, so that the caller receives
    no provider, and [persist] has not been called. *)
Theorem acquire_failure_aborts_construction
    E hostname store client_id scopes host client scope e :
  In (CallGetTokens host client scope) (__init__ E hostname store client_id scopes).2 ->
  get_tokens E host client scope = Raises e ->
  (__init__ E hostname store client_id scopes).1 = Raises e /\
  (forall self, (__init__ E hostname store client_id scopes).1 <> Returns self) /\
  List.filter is_persist (__init__ E hostname store client_id scopes).2 = [].
Proof.
  unfold_py. simpl. intros Hin Hg.
  py_cases; intuition (simplify_eq/=; auto; try congruence).
Qed.

Lemma acquire_failure_aborts_construction_witness :
  (__init__ Example.failing_exchange "host.com" (Some Example.store) "client"
     ["read"; "write"]).1 = Raises (CollaboratorError "no route to host") /\
  (forall self,
     (__init__ Example.failing_exchange "host.com" (Some Example.store) "client"
        ["read"; "write"]).1 <> Returns self) /\
  List.filter is_persist
    (__init__ Example.failing_exchange "host.com" (Some Example.store) "client"
       ["read"; "write"]).2 = [].
Proof.
  apply (acquire_failure_aborts_construction Example.failing_exchange "host.com"
           (Some Example.store) "client" ["read"; "write"]
           "https://host.com/" "client" "read write").
  - right. left. reflexivity.
  - reflexivity.
Defined.




(** ** The scope string *)

Lemma split_on_nonempty c s : split_on c s <> [].
Proof.
  destruct s as [|d s]; simpl; [discriminate|].
  destruct (Ascii.eqb d c); [discriminate|].
  destruct (split_on c s); discriminate.
Qed.

Lemma split_on_app c x rest :
  contains_char c x = false ->
  split_on c (x +:+ String c rest) = x :: split_on c rest.
Proof.
  induction x as [|d x IH]; intros Hx.
  - change ("" +:+ String c rest) with (String c rest). simpl.
    now rewrite Ascii.eqb_refl.
  - simpl in Hx. apply orb_false_iff in Hx as [Hd Hx].
    rewrite app_cons. simpl. rewrite Hd, (IH Hx). reflexivity.
Qed.

Lemma split_on_word c x : contains_char c x = false -> split_on c x = [x].
Proof.
  induction x as [|d x IH]; intros Hx; [reflexivity|].
  simpl in Hx. apply orb_false_iff in Hx as [Hd Hx].
  simpl. rewrite Hd, (IH Hx). reflexivity.
Qed.

(** Splitting the joined string at the delimiter gives back the words,
    in their order. *)
Lemma join_split_on c (l : list string) :
  l <> [] ->
  Forall (fun s => contains_char c s = false) l ->
  split_on c (Py.join (String c "") l) = l.
Proof.
  induction l as [|x l IH]; intros Hne Hall; [congruence|].
  inversion Hall as [|? ? Hx Hl]; subst.
  destruct l as [|y l].
  - simpl. now apply split_on_word.
  - change (Py.join (String c "") (x :: y :: l))
      with (x +:+ String c "" +:+ Py.join (String c "") (y :: l)).
    change (String c "" +:+ Py.join (String c "") (y :: l))
      with (String c (Py.join (String c "") (y :: l))).
    rewrite (split_on_app _ _ _ Hx), IH; [reflexivity|discriminate|assumption].
Qed.

(** C8: construction builds the scope string by joining the caller's
    scopes with [SCOPE_DELIM], a single space, in the caller's order,
    and passes it to the exchange: whenever nothing is adopted from the
    store (there is none, it is not read, or it is empty), [get_tokens]
    is called exactly once, with that string, and the provider returned
    when the exchange and the store answer keeps that string; no
    [get_tokens] call of any construction carries another scope. The
    join is the first scope, a space, then the join of the rest (the
    empty string for no scope at all), so that splitting it at the
    spaces gives back the scope list as supplied. The scopes [read],
    [write] make the exchange receive [read write]. *)
Theorem scope_string_joins_in_order E hostname store client_id (scopes : list string) :
  SCOPE_DELIM = " " /\
  (pair_after_read E store = Some (None, None) ->
   List.filter is_get_tokens (__init__ E hostname store client_id scopes).2 =
     [CallGetTokens (_normalize_host_name hostname) client_id (Py.join " " scopes)]) /\
  (forall s a r,
     pair_after_read E store = Some (None, None) ->
     store = Some s ->
     get_tokens E (_normalize_host_name hostname) client_id (Py.join " " scopes) =
       Returns (a, r) ->
     persistence_persist E s (mkOAuthToken a r) = Returns tt ->
     exists self,
       (__init__ E hostname store client_id scopes).1 = Returns self /\
       _scopes_as_str self = Py.join " " scopes) /\
  (forall host client scope,
     In (CallGetTokens host client scope)
        (__init__ E hostname store client_id scopes).2 ->
     scope = Py.join " " scopes) /\
  (forall self,
     (__init__ E hostname store client_id scopes).1 = Returns self ->
     _scopes_as_str self = Py.join " " scopes) /\
  (forall x y l, Py.join " " (x :: y :: l) = x +:+ " " +:+ Py.join " " (y :: l)) /\
  (forall x, Py.join " " [x] = x) /\
  Py.join " " [] = "" /\
  (scopes <> [] ->
   Forall (fun s => contains_char " " s = false) scopes ->
   split_on " " (Py.join " " scopes) = scopes) /\
  Py.join SCOPE_DELIM ["read"; "write"] = "read write" /\
  (pair_after_read E store = Some (None, None) ->
   List.filter is_get_tokens (__init__ E hostname store client_id ["read"; "write"]).2 =
     [CallGetTokens (_normalize_host_name hostname) client_id "read write"]).
Proof.
  assert (Hcall : forall l,
    pair_after_read E store = Some (None, None) ->
    List.filter is_get_tokens (__init__ E hostname store client_id l).2 =
      [CallGetTokens (_normalize_host_name hostname) client_id (Py.join " " l)]).
  { intros l Hn. rewrite (init_fresh _ _ _ _ _ Hn). cbv zeta.
    change SCOPE_DELIM with " ".
    destruct store as [s|]; [destruct (persistence_bool E s)|];
      destruct (get_tokens E _ _ _) as [[a r]|e];
      try destruct (persistence_persist E s _) as [[]|e];
      unfold handled; try destruct (is_Exception e); reflexivity. }
  split; [reflexivity|]. split; [apply Hcall|]. split; [|split; [|split]].
  - intros s a r Hn -> Hg Hp. rewrite (init_fresh _ _ _ _ _ Hn). cbv zeta.
    change SCOPE_DELIM with " ". rewrite Hg, Hp.
    eexists. split; reflexivity.
  - intros host client scope. unfold_py. simpl. intros Hin.
    py_cases; intuition (simplify_eq/=; auto).
  - intros self. unfold __init__.
    destruct (try_except _ _ _ _) as [[[[]|e] self1] tr1] eqn:Hrun; [|discriminate].
    intros [= <-]. revert Hrun. unfold try_except at 1.
    destruct (_initial_get_token E _ _) as [[[[]|e] self2] tr2] eqn:Hrun.
    + intros [= <- <-].
      apply initial_get_token_frame in Hrun as (_ & Hsc & _). exact Hsc.
    + destruct (is_Exception e); discriminate.
  - split; [reflexivity|]. split; [reflexivity|]. split; [reflexivity|].
    split; [apply join_split_on|]. split; [reflexivity|].
    apply (Hcall ["read"; "write"]).
Qed.

Lemma scope_string_joins_in_order_witness :
  List.filter is_get_tokens
    (__init__ Example.quiet "host.com" (Some Example.store) "client"
       ["read"; "write"]).2 =
    [CallGetTokens (_normalize_host_name "host.com") "client" "read write"] /\
  (exists self,
     (__init__ Example.quiet "host.com" (Some Example.store) "client"
        ["read"; "write"]).1 = Returns self /\
     _scopes_as_str self = Py.join " " ["read"; "write"]) /\
  split_on " " (Py.join " " ["read"; "write"]) = ["read"; "write"].
Proof.
  pose proof (scope_string_joins_in_order Example.quiet "host.com"
                (Some Example.store) "client" ["read"; "write"])
    as (_ & _ & Hreturns & _ & _ & _ & _ & _ & Hsplit & _ & Hcall).
  split; [apply Hcall; reflexivity|]. split.
  - apply (Hreturns Example.store (Some "A0") (Some "R0")); reflexivity.
  - apply Hsplit; [discriminate | repeat constructor].
Defined.

(** ** The header contract *)

Lemma add_headers_static p (h : gmap string string) tr :
  AccessTokenAuthProvider.add_headers (p, h) tr =
    (Returns tt,
     (p, <["Authorization" := AccessTokenAuthProvider.__authorization_header_value p]> h),
     tr).
Proof. reflexivity. Qed.

Lemma add_headers_basic p (h : gmap string string) tr :
  BasicAuthProvider.add_headers (p, h) tr =
    (Returns tt,
     (p, <["Authorization" := BasicAuthProvider.__authorization_header_value p]> h),
     tr).
Proof. reflexivity. Qed.

(** Whatever the variant, the outcome of [inject] is a function of
    the provider and the collaborators: the dictionary only receives
    the value. *)
Lemma inject_uniform E (p : provider) :
  exists res p' tr,
    forall h : gmap string string,
      inject E (p, h) [] =
        (res,
         (p', match res with
              | Returns _ => fun v => <["Authorization" := v]> h
              | Raises _ => fun _ => h
              end (match p' with
                   | StaticToken q => AccessTokenAuthProvider.__authorization_header_value q
                   | BasicAuth q => BasicAuthProvider.__authorization_header_value q
                   | OAuthRefreshing q => "Bearer " +:+ Py.str (_access_token q)
                   end)),
         tr).
Proof.
  destruct p as [q|q|q].
  - exists (Returns tt), (StaticToken q), []. intros h.
    unfold inject. cbn [fst snd]. now rewrite add_headers_static.
  - exists (Returns tt), (BasicAuth q), []. intros h.
    unfold inject. cbn [fst snd]. now rewrite add_headers_basic.
  - destruct (_update_token_if_expired E q []) as [[[[]|e] q'] tr'] eqn:Hu.
    + exists (Returns tt), (OAuthRefreshing q'), tr'. intros h.
      unfold inject. cbn [fst snd]. now rewrite add_headers_oauth, Hu.
    + exists (Raises e), (OAuthRefreshing q'), tr'. intros h.
      unfold inject. cbn [fst snd]. now rewrite add_headers_oauth, Hu.
Qed.

(** C9: for each of the three providers, an [add_headers] that returns
    has set the key [Authorization] of the caller's dictionary and
    nothing else: every other key keeps its entry (or its absence), the
    keys are the old ones plus [Authorization], and no entry was read,
    since on any other dictionary the call returns likewise, with the
    same provider state, the same calls and the same value installed. *)
Theorem inject_sets_only_authorization E (p : provider) (h : gmap string string) p' h' tr :
  inject E (p, h) [] = (Returns tt, (p', h'), tr) ->
  exists v,
    h' = <["Authorization" := v]> h /\
    h' !! "Authorization" = Some v /\
    (forall k, k <> "Authorization" -> h' !! k = h !! k) /\
    dom h' = {["Authorization"]} ∪ dom h /\
    (forall h2 : gmap string string,
       inject E (p, h2) [] =
         (Returns tt, (p', <["Authorization" := v]> h2), tr)).
Proof.
  intros Hrun. destruct (inject_uniform E p) as (res & q & tr0 & Hall).
  rewrite Hall in Hrun. injection Hrun as -> <- <- <-.
  eexists. split; [reflexivity|]. split; [apply lookup_insert_eq|].
  split; [intros k Hk; now apply lookup_insert_ne|].
  split; [apply dom_insert_L|]. exact Hall.
Qed.

Lemma inject_sets_only_authorization_witness :
  exists v,
    <["Authorization" := "Bearer A0"]> Example.headers =
      <["Authorization" := v]> Example.headers /\
    <["Authorization" := "Bearer A0"]> Example.headers !! "Authorization" = Some v /\
    (forall k, k <> "Authorization" ->
       <["Authorization" := "Bearer A0"]> Example.headers !! k = Example.headers !! k) /\
    dom (<["Authorization" := "Bearer A0"]> Example.headers) =
      {["Authorization"]} ∪ dom Example.headers /\
    (forall h2 : gmap string string,
       inject Example.quiet (OAuthRefreshing Example.provider, h2) [] =
         (Returns tt,
          (OAuthRefreshing Example.provider, <["Authorization" := v]> h2),
          [check_event Example.provider])).
Proof.
  apply (inject_sets_only_authorization Example.quiet
           (OAuthRefreshing Example.provider) Example.headers
           (OAuthRefreshing Example.provider)
           (<["Authorization" := "Bearer A0"]> Example.headers)
           [check_event Example.provider]).
  reflexivity.
Defined.

(** * Further properties of the code *)

(** ** Host names *)

(** X1: the normal form of a host name always starts with [https://]
    and ends with [/], and normalizing a normal form changes nothing. *)
Theorem normalize_host_name_normal_form (hostname : string) :
  has_prefix "https://" (_normalize_host_name hostname) /\
  has_suffix "/" (_normalize_host_name hostname) /\
  _normalize_host_name (_normalize_host_name hostname) = _normalize_host_name hostname.
Proof.
  destruct (normalize_host_name_qualified hostname) as [Hp Hs].
  split; [exact Hp|]. split; [exact Hs|].
  apply normalize_host_name_idempotent.
Qed.

(** X2: construction sees the host name only through its normal form:
    a host name and its normal form give the same outcome and the same
    calls, whatever the collaborators do. *)
Theorem construction_uses_normal_form E hostname store client_id scopes :
  __init__ E (_normalize_host_name hostname) store client_id scopes =
  __init__ E hostname store client_id scopes.
Proof.
  unfold __init__. rewrite normalize_host_name_idempotent. reflexivity.
Qed.

(** ** The life of an OAuth provider *)

Lemma init_frame E hostname store client_id scopes self tr :
  __init__ E hostname store client_id scopes = (Returns self, tr) ->
  _hostname self = _normalize_host_name hostname /\
  _scopes_as_str self = Py.join SCOPE_DELIM scopes /\
  _oauth_persistence self = store /\
  _client_id self = client_id.
Proof.
  unfold __init__.
  destruct (try_except _ _ _ _) as [[[[]|e] self1] tr1] eqn:Hrun; [|discriminate].
  intros [= <- <-]. revert Hrun. unfold try_except at 1.
  destruct (_initial_get_token E _ _) as [[[[]|e] self2] tr2] eqn:Hrun.
  - intros [= <- <-]. apply initial_get_token_frame in Hrun. exact Hrun.
  - destruct (is_Exception e); discriminate.
Qed.

(** X3: whatever [add_headers] calls a provider has been through, and
    whether they returned or raised, it is the object its constructor
    built but for the two tokens: it holds the normalized form of the
    host name it was constructed with (which starts with [https://] and
    ends with [/]), the join of the scopes it was constructed with, the
    client id and the persistence object it was constructed with, and
    that object is not [None]. *)
Theorem ready_provider_keeps_identity hostname store client_id scopes self :
  ReadyFrom hostname store client_id scopes self ->
  self =
    {| _hostname := _normalize_host_name hostname;
       _scopes_as_str := Py.join " " scopes;
       _oauth_persistence := store;
       _client_id := client_id;
       _access_token := _access_token self;
       _refresh_token := _refresh_token self |} /\
  has_prefix "https://" (_hostname self) /\
  has_suffix "/" (_hostname self) /\
  store <> None.
Proof.
  intros Hready.
  assert (Hid : _hostname self = _normalize_host_name hostname /\
                _scopes_as_str self = Py.join " " scopes /\
                _oauth_persistence self = store /\
                _client_id self = client_id /\ store <> None).
  { induction Hready as [E self tr Hinit|E self h r self' h' tr _ IH Hadd].
    - destruct (init_frame _ _ _ _ _ _ _ Hinit) as (Hh & Hsc & Hst & Hc).
      repeat split; auto.
      intros ->. destruct (init_without_store E hostname client_id scopes)
        as (e & tr' & He). congruence.
    - destruct IH as (Hh & Hsc & Hst & Hc & Hne).
      rewrite add_headers_oauth in Hadd.
      destruct (_update_token_if_expired E self []) as [[r0 self0] tr0] eqn:Hupd.
      apply update_frame in Hupd as (Hh' & Hsc' & Hst' & Hc').
      assert (self' = self0) as -> by (destruct r0; congruence).
      rewrite Hh', Hsc', Hst', Hc'. auto. }
  destruct Hid as (Hh & Hsc & Hst & Hc & Hne).
  destruct (normalize_host_name_qualified hostname) as [Hp Hsf].
  split; [|rewrite Hh; auto].
  destruct self; simpl in *; congruence.
Qed.

Lemma ready_provider_keeps_identity_witness :
  Example.provider =
    {| _hostname := _normalize_host_name "host.com";
       _scopes_as_str := Py.join " " ["read"; "write"];
       _oauth_persistence := Some Example.store;
       _client_id := "client";
       _access_token := _access_token Example.provider;
       _refresh_token := _refresh_token Example.provider |} /\
  has_prefix "https://" (_hostname Example.provider) /\
  has_suffix "/" (_hostname Example.provider) /\
  Some Example.store <> None.
Proof.
  apply (ready_provider_keeps_identity "host.com" (Some Example.store) "client"
           ["read"; "write"] Example.provider).
  exact (ReadyFrom_constructed "host.com" (Some Example.store) "client"
           ["read"; "write"] Example.quiet _ _ eq_refl).
Defined.

Lemma init_stocked_store E hostname store client_id scopes token :
  persistence_bool E store = true ->
  persistence_read E store = Returns (Some token) ->
  Py.truthy (get_access_token token) = true ->
  Py.truthy (get_refresh_token token) = true ->
  __init__ E hostname (Some store) client_id scopes =
    match
      _update_token_if_expired E
        {| _hostname := _normalize_host_name hostname;
           _scopes_as_str := Py.join SCOPE_DELIM scopes;
           _oauth_persistence := Some store;
           _client_id := client_id;
           _access_token := get_access_token token;
           _refresh_token := get_refresh_token token |}
        [CallRead store]
    with
    | (Returns _, self, tr) => (Returns self, tr)
    | (Raises e, _, tr) =>
        (Raises e,
         tr ++ handled "unexpected error in oauth initialization" e ++
               handled "unexpected error" e)
    end%list.
Proof.
  intros Hb Hread Ha Hr.
  unfold __init__, _initial_get_token, try_except at 1 2, bind at 1 2 3 4.
  unfold get_self at 1. simpl. rewrite Hb. unfold call at 1. simpl. rewrite Hread.
  unfold bind at 1 2, modify, get_self. simpl. rewrite Ha, Hr. simpl.
  destruct (_update_token_if_expired E _ _) as [[[[]|e] self] tr]; simpl.
  - reflexivity.
  - unfold handled. destruct (is_Exception e) eqn:He; simpl; rewrite ?He.
    + unfold_py. simpl. now rewrite <- app_assoc.
    + now rewrite app_nil_r.
Qed.

(** X4: when the store holds a pair with both tokens non-empty,
    construction never calls [get_tokens]; it asks the exchange to check
    exactly that pair, once. Told that nothing was refreshed, it returns
    a provider holding the stored pair and writes nothing back; told of
    a refresh, it holds the new pair and hands it to the one [persist]
    call; and when the check raises, construction raises the same
    exception without falling back to a fresh acquisition. The store
    counts as true here: one that counts as false is not read. *)
Theorem stocked_store_only_checks E hostname store client_id scopes token :
  persistence_bool E store = true ->
  persistence_read E store = Returns (Some token) ->
  Py.truthy (get_access_token token) = true ->
  Py.truthy (get_refresh_token token) = true ->
  let run := __init__ E hostname (Some store) client_id scopes in
  let check :=
    check_and_refresh_access_token E (_normalize_host_name hostname) client_id
      (get_access_token token) (get_refresh_token token) in
  List.filter is_get_tokens run.2 = [] /\
  List.filter is_check_and_refresh run.2 =
    [CallCheckAndRefresh (_normalize_host_name hostname) client_id
       (get_access_token token) (get_refresh_token token)] /\
  (forall a r, check = Returns (a, r, false) ->
     List.filter is_persist run.2 = [] /\
     exists self, run.1 = Returns self /\
       token_pair self = (get_access_token token, get_refresh_token token)) /\
  (forall a r, check = Returns (a, r, true) ->
     List.filter is_persist run.2 = [CallPersist store (mkOAuthToken a r)] /\
     (persistence_persist E store (mkOAuthToken a r) = Returns tt ->
      exists self, run.1 = Returns self /\ token_pair self = (a, r))) /\
  (forall e, check = Raises e ->
     run.1 = Raises e /\ List.filter is_persist run.2 = []).
Proof.
  intros Hb Hread Ha Hr. cbv zeta.
  rewrite (init_stocked_store _ _ _ _ _ _ Hb Hread Ha Hr).
  set (self1 := {| _hostname := _normalize_host_name hostname |}).
  change (check_and_refresh_access_token E (_normalize_host_name hostname) client_id
            (get_access_token token) (get_refresh_token token))
    with (check_of E self1).
  destruct (check_of E self1) as [[[a r] [|]]|e] eqn:Hcheck.
  - rewrite (update_refreshed_store E self1 _ a r store Hcheck eq_refl Hb).
    destruct (persistence_persist E store _) as [[]|e] eqn:Hp;
      [|unfold handled; destruct (is_Exception e)];
      (split; [reflexivity|]); (split; [reflexivity|]);
      (split; [intros ? ? [=]|]); (split; [|intros ? [=]]);
      intros a' r' [= <- <-]; (split; [reflexivity|]); rewrite Hp;
      first [intros _; eexists; split; reflexivity | intros [=]].
  - rewrite (update_not_refreshed E self1 _ a r Hcheck).
    split; [reflexivity|]. split; [reflexivity|].
    split; [|split; [intros ? ? [=] | intros ? [=]]].
    intros a' r' _. split; [reflexivity|]. eexists. split; reflexivity.
  - rewrite (update_raises E self1 _ e Hcheck).
    cbn [fst snd]. unfold handled. destruct (is_Exception e);
      (split; [reflexivity|]); (split; [reflexivity|]);
      (split; [intros ? ? [=]|]); (split; [intros ? ? [=]|]);
      intros e' [= <-]; split; reflexivity.
Qed.

Lemma stocked_store_only_checks_witness :
  let run := __init__ Example.stocked "host.com" (Some Example.store) "client"
               ["read"; "write"] in
  let check :=
    check_and_refresh_access_token Example.stocked (_normalize_host_name "host.com")
      "client" (Some "a") (Some "r") in
  List.filter is_get_tokens run.2 = [] /\
  List.filter is_check_and_refresh run.2 =
    [CallCheckAndRefresh (_normalize_host_name "host.com") "client"
       (Some "a") (Some "r")] /\
  (forall a r, check = Returns (a, r, false) ->
     List.filter is_persist run.2 = [] /\
     exists self, run.1 = Returns self /\ token_pair self = (Some "a", Some "r")) /\
  (forall a r, check = Returns (a, r, true) ->
     List.filter is_persist run.2 = [CallPersist Example.store (mkOAuthToken a r)] /\
     (persistence_persist Example.stocked Example.store (mkOAuthToken a r) = Returns tt ->
      exists self, run.1 = Returns self /\ token_pair self = (a, r))) /\
  (forall e, check = Raises e ->
     run.1 = Raises e /\ List.filter is_persist run.2 = []).
Proof.
  apply (stocked_store_only_checks Example.stocked "host.com" Example.store "client"
           ["read"; "write"] (mkOAuthToken (Some "a") (Some "r"))).
  - reflexivity.
  - reflexivity.
  - reflexivity.
  - reflexivity.
Defined.

(** X5: when the store counts as true and its [read] raises,
    construction raises the same exception at once, with the read as its
    only call to a collaborator: the exchange is not called and nothing
    is persisted. If the exception is an [Exception], [logging.error] is
    called by [_initial_get_token] and again by [__init__], each time
    with the exception as argument; if it is not (a [KeyboardInterrupt],
    say), it passes both handlers and [logging.error] is not called. *)
Theorem read_failure_aborts_construction E hostname store client_id scopes e :
  persistence_bool E store = true ->
  persistence_read E store = Raises e ->
  __init__ E hostname (Some store) client_id scopes =
    (Raises e,
     if is_Exception e
     then [CallRead store;
           LogError "unexpected error in oauth initialization" e;
           LogError "unexpected error" e]
     else [CallRead store]).
Proof.
  intros Hb Hread. unfold_py. simpl. rewrite Hb. simpl. rewrite Hread.
  destruct (is_Exception e) eqn:He; simpl; rewrite ?He; reflexivity.
Qed.

Lemma read_failure_aborts_construction_witness :
  __init__ unreadable "host.com" (Some Example.store) "client" ["read"; "write"] =
    (Raises (CollaboratorError "permission denied"),
     if is_Exception (CollaboratorError "permission denied")
     then [CallRead Example.store;
           LogError "unexpected error in oauth initialization"
             (CollaboratorError "permission denied");
           LogError "unexpected error" (CollaboratorError "permission denied")]
     else [CallRead Example.store]).
Proof.
  apply (read_failure_aborts_construction unreadable "host.com" Example.store
           "client" ["read"; "write"]).
  - reflexivity.
  - reflexivity.
Defined.

(** X6: in one construction each collaborator is called at most once;
    the exchange is asked either to acquire or to check, never both;
    nothing is persisted unless the exchange was called; a persistence
    object that counts as true is read before anything else happens,
    and one that is absent or counts as false is never read. *)
Theorem construction_call_discipline E hostname store client_id scopes :
  let tr := (__init__ E hostname store client_id scopes).2 in
  length (List.filter is_read tr) <= 1 /\
  length (List.filter is_exchange tr) <= 1 /\
  length (List.filter is_persist tr) <= length (List.filter is_exchange tr) /\
  (forall s, store = Some s -> persistence_bool E s = true ->
     hd_error tr = Some (CallRead s)) /\
  (object_truthy E store = false -> List.filter is_read tr = []).
Proof.
  cbv zeta. unfold_py. simpl.
  py_cases; repeat split; simpl; try lia; intros; simplify_eq; try reflexivity;
    congruence.
Qed.

Lemma construction_call_discipline_witness :
  hd_error (__init__ Example.quiet "host.com" (Some Example.store) "client"
              ["read"; "write"]).2 = Some (CallRead Example.store) /\
  List.filter is_read
    (__init__ falsy_quiet "host.com" (Some Example.store) "client"
       ["read"; "write"]).2 = [].
Proof.
  split.
  - apply (construction_call_discipline Example.quiet "host.com"
             (Some Example.store) "client" ["read"; "write"]); reflexivity.
  - apply (construction_call_discipline falsy_quiet "host.com"
             (Some Example.store) "client" ["read"; "write"]); reflexivity.
Defined.

(** X7: [add_headers] of the OAuth provider begins by asking the
    exchange to check the pair it holds, and asks once; it never reads
    the store and never acquires fresh tokens; it persists at most
    once. *)
Theorem inject_call_discipline E self (h : gmap string string) :
  let tr := (DatabricksOAuthProvider.add_headers E (self, h) []).2 in
  hd_error tr = Some (check_event self) /\
  List.filter is_check_and_refresh tr = [check_event self] /\
  List.filter is_read tr = [] /\
  List.filter is_get_tokens tr = [] /\
  length (List.filter is_persist tr) <= 1.
Proof.
  cbv zeta. rewrite add_headers_oauth.
  destruct (update_cases E self [])
    as [(e & _ & ->)|[(a & r0 & _ & ->)|[(a & r0 & _ & _ & ->)
       |(a & r0 & store & _ & _ & _ & [[_ ->]|(e & _ & ->)])]]];
    cbn [fst snd app]; rewrite ?filter_handled by reflexivity;
    unfold handled; try destruct (is_Exception e);
    simpl; repeat split; lia.
Qed.

(** ** Logging *)

(** X8: [add_headers] of the OAuth provider calls [logging.error]
    exactly when it raises an [Exception]: a call that returns has made
    no logging call; a call that raises an [Exception] has made one, as
    its last action, with the message of [_update_token_if_expired] and
    the exception as argument; a [BaseException] that is not an
    [Exception] passes the handler and no logging call is made. *)
Theorem inject_logs_iff_raises E self (h : gmap string string) :
  let run := DatabricksOAuthProvider.add_headers E (self, h) [] in
  match run.1.1 with
  | Returns _ => List.filter is_log run.2 = []
  | Raises e =>
      List.filter is_log run.2 =
        handled "unexpected error in oauth token update" e /\
      (is_Exception e = true ->
       last run.2 = Some (LogError "unexpected error in oauth token update" e))
  end.
Proof.
  cbv zeta. rewrite add_headers_oauth.
  destruct (update_cases E self [])
    as [(e & _ & ->)|[(a & r0 & _ & ->)|[(a & r0 & _ & _ & ->)
       |(a & r0 & store & _ & _ & _ & [[_ ->]|(e & _ & ->)])]]];
    cbn [fst snd app]; try reflexivity;
    unfold handled; destruct (is_Exception e); simpl;
    split; try discriminate; auto.
Qed.

Lemma inject_logs_iff_raises_witness :
  List.filter is_log
    (DatabricksOAuthProvider.add_headers Example.failing_store
       (Example.provider, Example.headers) []).2 =
    [LogError "unexpected error in oauth token update" (CollaboratorError "disk full")] /\
  last (DatabricksOAuthProvider.add_headers Example.failing_store
          (Example.provider, Example.headers) []).2 =
    Some (LogError "unexpected error in oauth token update"
            (CollaboratorError "disk full")).
Proof.
  pose proof (inject_logs_iff_raises Example.failing_store Example.provider
                Example.headers) as [Hlog Hlast].
  split; [exact Hlog | apply Hlast; reflexivity].
Defined.

(** X9: construction calls [logging.error] exactly when it raises an
    [Exception]: a construction that returns a provider has made no
    logging call; one that raises an [Exception] has made, last of all,
    a call with the message of [_initial_get_token] and then one with
    that of [__init__], preceded by a call with the message of
    [_update_token_if_expired] when, and only when, the exchange was
    asked to check a stored pair; each call is given the exception.  A
    [BaseException] that is not an [Exception] passes all three
    handlers and no logging call is made. *)
Theorem construction_logs_iff_raises E hostname store client_id scopes :
  let run := __init__ E hostname store client_id scopes in
  match run.1 with
  | Returns _ => List.filter is_log run.2 = []
  | Raises e =>
      List.filter is_log run.2 =
        (if List.existsb is_check_and_refresh run.2
         then handled "unexpected error in oauth token update" e else []) ++
        handled "unexpected error in oauth initialization" e ++
        handled "unexpected error" e /\
      (exists tr0,
        run.2 = tr0 ++ handled "unexpected error in oauth initialization" e ++
                       handled "unexpected error" e) /\
      (is_Exception e = false -> List.filter is_log run.2 = [])
  end%list.
Proof.
  cbv zeta. unfold_py. simpl.
  py_cases; try congruence; try reflexivity;
    (split; [reflexivity|]); (split; [|intros; try reflexivity; congruence]).
  all: match goal with
       | |- exists tr0, ?l = _ =>
           first [ exists (removelast (removelast l)); reflexivity
                 | exists l; reflexivity ]
       end.
Qed.

Lemma construction_logs_iff_raises_witness :
  List.filter is_log
    (__init__ Example.failing_exchange "host.com" (Some Example.store) "client"
       ["read"; "write"]).2 =
    [LogError "unexpected error in oauth initialization"
       (CollaboratorError "no route to host");
     LogError "unexpected error" (CollaboratorError "no route to host")] /\
  List.filter is_log
    (__init__ interrupted "host.com" (Some Example.store) "client"
       ["read"; "write"]).2 = [].
Proof.
  split.
  - apply (construction_logs_iff_raises Example.failing_exchange "host.com"
             (Some Example.store) "client" ["read"; "write"]).
  - apply (construction_logs_iff_raises interrupted "host.com"
             (Some Example.store) "client" ["read"; "write"]). reflexivity.
Defined.

(** ** Memory and store *)

(** X10: during [add_headers] of a provider whose persistence object
    counts as true, the in-memory pair changes only hand in hand with a
    [persist] call: whatever is handed to [persist] goes to the
    provider's own persistence object, which counts as true, and is the
    pair the provider holds afterwards; a call without [persist] leaves
    such a provider as it was.  A provider whose persistence object
    counts as false never calls [persist] from [add_headers]. *)
Theorem inject_persists_what_it_holds E self (h : gmap string string) res self' h' tr :
  DatabricksOAuthProvider.add_headers E (self, h) [] = (res, (self', h'), tr) ->
  (forall s token, In (CallPersist s token) tr ->
     _oauth_persistence self = Some s /\
     persistence_bool E s = true /\
     token = mkOAuthToken (_access_token self') (_refresh_token self')) /\
  (object_truthy E (_oauth_persistence self) = true ->
   List.filter is_persist tr = [] ->
   self' = self) /\
  (object_truthy E (_oauth_persistence self) = false ->
   List.filter is_persist tr = []).
Proof.
  rewrite add_headers_oauth.
  destruct (update_cases E self [])
    as [(e & _ & ->)|[(a & r0 & _ & ->)|[(a & r0 & _ & Hf & ->)
       |(a & r0 & store & _ & Hs & Hb & [[_ ->]|(e & _ & ->)])]]];
    intros [= <- <- <- <-]; unfold handled.
  - split; [|destruct (is_Exception e); split; reflexivity].
    intros s token [[=]|Hin].
    destruct (is_Exception e); simpl in Hin; intuition discriminate.
  - split; [|split; reflexivity].
    intros s token [[=]|[]].
  - split; [|split; [congruence|reflexivity]].
    intros s token [[=]|[]].
  - split; [|split; [intros _ [=]|rewrite Hs; simpl; congruence]].
    intros s token [[=]|[[= <- <-]|[]]]. auto.
  - split; [|split; [intros _ [=]|rewrite Hs; simpl; congruence]].
    intros s token [[=]|[[= <- <-]|Hin]]; [auto|].
    destruct (is_Exception e); simpl in Hin; intuition discriminate.
Qed.

Lemma inject_persists_what_it_holds_witness :
  (forall s token,
     In (CallPersist s token)
        [check_event Example.provider;
         CallPersist Example.store (mkOAuthToken (Some "A1") (Some "R1"))] ->
     _oauth_persistence Example.provider = Some s /\
     persistence_bool Example.refreshing s = true /\
     token = mkOAuthToken
               (_access_token (adopt (Some "A1") (Some "R1") Example.provider))
               (_refresh_token (adopt (Some "A1") (Some "R1") Example.provider))) /\
  (object_truthy Example.refreshing (_oauth_persistence Example.provider) = true ->
   List.filter is_persist
     [check_event Example.provider;
      CallPersist Example.store (mkOAuthToken (Some "A1") (Some "R1"))] = [] ->
   adopt (Some "A1") (Some "R1") Example.provider = Example.provider) /\
  (object_truthy Example.refreshing (_oauth_persistence Example.provider) = false ->
   List.filter is_persist
     [check_event Example.provider;
      CallPersist Example.store (mkOAuthToken (Some "A1") (Some "R1"))] = []).
Proof.
  apply (inject_persists_what_it_holds Example.refreshing Example.provider
           Example.headers (Returns tt)
           (adopt (Some "A1") (Some "R1") Example.provider)
           (<["Authorization" := "Bearer A1"]> Example.headers)).
  reflexivity.
Defined.

(** X11: a provider that construction returns holds what its store
    holds: either the pair was handed to [persist], in the one [persist]
    call of the construction, or nothing was persisted and the pair is
    the one the store's [read] returned. *)
Theorem constructed_provider_agrees_with_store
    E hostname store client_id scopes self tr :
  __init__ E hostname store client_id scopes = (Returns self, tr) ->
  exists s,
    store = Some s /\
    (List.filter is_persist tr =
       [CallPersist s (mkOAuthToken (_access_token self) (_refresh_token self))] /\
     persistence_persist E s
       (mkOAuthToken (_access_token self) (_refresh_token self)) = Returns tt
     \/
     List.filter is_persist tr = [] /\
     persistence_read E s =
       Returns (Some (mkOAuthToken (_access_token self) (_refresh_token self)))).
Proof.
  unfold_py. simpl. intros Hrun.
  py_cases; try congruence; eexists; (split; [reflexivity|]); simpl;
    first [ left; split; [reflexivity|];
            match goal with H : persistence_persist _ _ _ = Returns ?u |- _ =>
              destruct u; exact H end
          | right; split; [reflexivity|];
            match goal with H : persistence_read _ _ = Returns (Some ?t) |- _ =>
              destruct t; exact H end ].
Qed.

Lemma constructed_provider_agrees_with_store_witness :
  exists s,
    Some Example.store = Some s /\
    (List.filter is_persist
       [CallRead Example.store;
        CallGetTokens "https://host.com/" "client" "read write";
        CallPersist Example.store (mkOAuthToken (Some "A0") (Some "R0"))] =
       [CallPersist s (mkOAuthToken (_access_token Example.provider)
                         (_refresh_token Example.provider))] /\
     persistence_persist Example.quiet s
       (mkOAuthToken (_access_token Example.provider)
          (_refresh_token Example.provider)) = Returns tt
     \/
     List.filter is_persist
       [CallRead Example.store;
        CallGetTokens "https://host.com/" "client" "read write";
        CallPersist Example.store (mkOAuthToken (Some "A0") (Some "R0"))] = [] /\
     persistence_read Example.quiet s =
       Returns (Some (mkOAuthToken (_access_token Example.provider)
                        (_refresh_token Example.provider)))).
Proof.
  apply (constructed_provider_agrees_with_store Example.quiet "host.com"
           (Some Example.store) "client" ["read"; "write"] Example.provider).
  reflexivity.
Defined.

(** ** The stateless providers *)

(** X12: a static-token provider built from [token] installs exactly
    [Bearer token], and a basic-auth provider built from a user name and
    a password installs [Basic] followed by the base64 of
    [username:password]. Neither ever raises, calls a collaborator or
    changes; an [Authorization] entry already present is replaced; and
    a second call leaves the dictionary as the first one left it. *)
Theorem stateless_providers_install_fixed_header E (h : gmap string string) tr :
  (forall token,
     let p := StaticToken (AccessTokenAuthProvider.__init__ token) in
     let h1 := <["Authorization" := "Bearer " +:+ token]> h in
     inject E (p, h) tr = (Returns tt, (p, h1), tr) /\
     inject E (p, h1) tr = (Returns tt, (p, h1), tr) /\
     h1 !! "Authorization" = Some ("Bearer " +:+ token)) /\
  (forall username password,
     let p := BasicAuth (BasicAuthProvider.__init__ username password) in
     let v := "Basic " +:+ Base64.standard_b64encode (username +:+ ":" +:+ password) in
     let h1 := <["Authorization" := v]> h in
     inject E (p, h) tr = (Returns tt, (p, h1), tr) /\
     inject E (p, h1) tr = (Returns tt, (p, h1), tr) /\
     h1 !! "Authorization" = Some v).
Proof.
  split; [intros token | intros username password];
    cbv zeta; unfold inject; cbn [fst snd].
  - rewrite !add_headers_static. cbn [fst snd].
    rewrite insert_insert_eq, lookup_insert_eq. repeat split.
  - rewrite !add_headers_basic. cbn [fst snd].
    rewrite insert_insert_eq, lookup_insert_eq. repeat split.
Qed.

(** ** Base64 and the basic-auth header *)

Lemma b64_digit_value (n : N) :
  (n < 64)%N -> b64_value (Base64.digit n) = n /\ Base64.digit n <> "="%char.
Proof.
  intros Hn.
  assert (Hall : forallb (fun k => N.eqb (b64_value (Base64.digit (N.of_nat k))) (N.of_nat k)
                                   && negb (Ascii.eqb (Base64.digit (N.of_nat k)) "="))
                   (seq 0 64) = true) by (vm_compute; reflexivity).
  rewrite forallb_forall in Hall.
  specialize (Hall (N.to_nat n)). rewrite N2Nat.id in Hall.
  assert (Hin : In (N.to_nat n) (seq 0 64)) by (apply in_seq; lia).
  apply Hall, andb_prop in Hin as [H1 H2].
  split; [now apply N.eqb_eq|].
  intros Heq. rewrite Heq in H2. discriminate.
Qed.

Lemma list_ind3 {A} (P : list A -> Prop) :
  P [] -> (forall a, P [a]) -> (forall a b, P [a; b]) ->
  (forall a b c l, P l -> P (a :: b :: c :: l)) ->
  forall l, P l.
Proof.
  intros H0 H1 H2 H3.
  assert (Hall : forall l, P l /\ (forall a, P (a :: l)) /\ (forall a b, P (a :: b :: l))).
  { induction l as [|x l (IH0 & IH1 & IH2)]; [auto|].
    split; [apply IH1|]. split; [intros a; apply IH2|].
    intros a b. now apply H3. }
  intros l. apply Hall.
Qed.

Lemma encode_three a b c rest :
  Base64.encode (a :: b :: c :: rest) =
    String (Base64.digit (a / 4))
      (String (Base64.digit (a mod 4 * 16 + b / 16))
         (String (Base64.digit (b mod 16 * 4 + c / 64))
            (String (Base64.digit (c mod 64)) (Base64.encode rest))))%N.
Proof. reflexivity. Qed.

Lemma decode_group c1 c2 c3 c4 rest :
  b64_decode (String c1 (String c2 (String c3 (String c4 rest)))) =
    (if Ascii.eqb c3 "=" then [b64_value c1 * 4 + b64_value c2 / 16]
     else if Ascii.eqb c4 "="
          then [b64_value c1 * 4 + b64_value c2 / 16;
                b64_value c2 mod 16 * 16 + b64_value c3 / 4]
          else b64_value c1 * 4 + b64_value c2 / 16
               :: b64_value c2 mod 16 * 16 + b64_value c3 / 4
               :: b64_value c3 mod 4 * 64 + b64_value c4
               :: b64_decode rest)%N.
Proof. reflexivity. Qed.

Lemma digit_not_pad n : (n < 64)%N -> Ascii.eqb (Base64.digit n) "=" = false.
Proof.
  intros Hn. apply Ascii.eqb_neq. now apply b64_digit_value.
Qed.

(** Decoding what [encode] produced gives back the bytes. *)
Lemma b64_decode_encode (bs : list N) :
  Forall (fun b => (b < 256)%N) bs -> b64_decode (Base64.encode bs) = bs.
Proof.
  induction bs as [|a|a b|a b c rest IH] using list_ind3; intros Hall.
  - reflexivity.
  - inversion Hall as [|? ? Ha _]; subst.
    change (Base64.encode [a]) with
      (String (Base64.digit (a / 4)) (String (Base64.digit (a mod 4 * 16)) "=="))%N.
    rewrite decode_group. cbn [Ascii.eqb Bool.eqb].
    destruct (b64_digit_value (a / 4)) as [-> _]; [b64_arith|].
    destruct (b64_digit_value (a mod 4 * 16)) as [-> _]; [b64_arith|].
    f_equal. b64_arith.
  - inversion Hall as [|? ? Ha Hall']; subst.
    inversion Hall' as [|? ? Hb _]; subst.
    change (Base64.encode [a; b]) with
      (String (Base64.digit (a / 4))
         (String (Base64.digit (a mod 4 * 16 + b / 16))
            (String (Base64.digit (b mod 16 * 4)) "=")))%N.
    rewrite decode_group, digit_not_pad by b64_arith. cbn [Ascii.eqb Bool.eqb].
    destruct (b64_digit_value (a / 4)) as [-> _]; [b64_arith|].
    destruct (b64_digit_value (a mod 4 * 16 + b / 16)) as [-> _]; [b64_arith|].
    destruct (b64_digit_value (b mod 16 * 4)) as [-> _]; [b64_arith|].
    f_equal; [b64_arith|]. f_equal. b64_arith.
  - inversion Hall as [|? ? Ha Hall1]; subst.
    inversion Hall1 as [|? ? Hb Hall2]; subst.
    inversion Hall2 as [|? ? Hc Hall3]; subst.
    rewrite encode_three, decode_group, !digit_not_pad by b64_arith.
    destruct (b64_digit_value (a / 4)) as [-> _]; [b64_arith|].
    destruct (b64_digit_value (a mod 4 * 16 + b / 16)) as [-> _]; [b64_arith|].
    destruct (b64_digit_value (b mod 16 * 4 + c / 64)) as [-> _]; [b64_arith|].
    destruct (b64_digit_value (c mod 64)) as [-> _]; [b64_arith|].
    rewrite (IH Hall3).
    f_equal; [b64_arith|]. f_equal; [b64_arith|]. f_equal. b64_arith.
Qed.

Lemma bytes_of_bounded (s : string) : Forall (fun b => (b < 256)%N) (Base64.bytes_of s).
Proof.
  unfold Base64.bytes_of. apply List.Forall_forall. intros b Hin.
  apply in_map_iff in Hin as (c & <- & _). apply N_ascii_bounded.
Qed.

Lemma bytes_of_inj (s1 s2 : string) : Base64.bytes_of s1 = Base64.bytes_of s2 -> s1 = s2.
Proof.
  unfold Base64.bytes_of. intros Heq.
  rewrite <- (string_of_list_ascii_of_string s1), <- (string_of_list_ascii_of_string s2).
  f_equal. revert Heq.
  generalize (list_ascii_of_string s1) (list_ascii_of_string s2).
  induction l as [|c l IH]; intros [|d l'] Heq; simpl in Heq; try discriminate; auto.
  injection Heq as Hc Hl. f_equal; [|now apply IH].
  rewrite <- (ascii_N_embedding c), <- (ascii_N_embedding d). now f_equal.
Qed.

Lemma basic_header_unfold username password :
  BasicAuthProvider.__authorization_header_value
    (BasicAuthProvider.__init__ username password) =
  "Basic " +:+ Base64.standard_b64encode (username +:+ ":" +:+ password).
Proof. reflexivity. Qed.

(** X13: the value a basic-auth provider installs is [Basic ] followed
    by base64 digits that decode to the bytes of [username:password]:
    the receiver reads back exactly what the constructor was given. *)
Theorem basic_header_decodes_to_credentials username password :
  exists digits,
    BasicAuthProvider.__authorization_header_value
      (BasicAuthProvider.__init__ username password) = "Basic " +:+ digits /\
    b64_decode digits = Base64.bytes_of (username +:+ ":" +:+ password).
Proof.
  eexists. split; [apply basic_header_unfold|].
  apply b64_decode_encode, bytes_of_bounded.
Qed.

Lemma split_at_first_colon u1 p1 u2 p2 :
  contains_char ":" u1 = false ->
  contains_char ":" u2 = false ->
  u1 +:+ ":" +:+ p1 = u2 +:+ ":" +:+ p2 ->
  u1 = u2 /\ p1 = p2.
Proof.
  revert u2. induction u1 as [|c u1 IH]; intros [|d u2] H1 H2 Heq.
  - change ("" +:+ ":" +:+ p1) with (String ":" p1) in Heq.
    change ("" +:+ ":" +:+ p2) with (String ":" p2) in Heq.
    injection Heq as ->. auto.
  - change ("" +:+ ":" +:+ p1) with (String ":" p1) in Heq.
    rewrite app_cons in Heq. injection Heq as <- _.
    simpl in H2. discriminate.
  - change ("" +:+ ":" +:+ p2) with (String ":" p2) in Heq.
    rewrite app_cons in Heq. injection Heq as -> _.
    simpl in H1. discriminate.
  - rewrite !app_cons in Heq. injection Heq as -> Heq.
    simpl in H1, H2. apply orb_false_iff in H1 as [_ H1].
    apply orb_false_iff in H2 as [_ H2].
    destruct (IH u2 H1 H2 Heq) as [-> ->]. auto.
Qed.

(** X14: two basic-auth providers install the same header only if
    their [username:password] strings are the same; when neither user
    name contains a colon, only if both the user names and the passwords
    are the same. *)
Theorem basic_header_determines_credentials u1 p1 u2 p2 :
  BasicAuthProvider.__init__ u1 p1 = BasicAuthProvider.__init__ u2 p2 ->
  u1 +:+ ":" +:+ p1 = u2 +:+ ":" +:+ p2 /\
  (contains_char ":" u1 = false -> contains_char ":" u2 = false ->
   u1 = u2 /\ p1 = p2).
Proof.
  intros Heq.
  assert (Hs : u1 +:+ ":" +:+ p1 = u2 +:+ ":" +:+ p2).
  { apply (f_equal BasicAuthProvider.__authorization_header_value) in Heq.
    rewrite !basic_header_unfold in Heq.
    apply (inj (String.append "Basic ")) in Heq.
    apply (f_equal b64_decode) in Heq. unfold Base64.standard_b64encode in Heq.
    rewrite !b64_decode_encode in Heq by apply bytes_of_bounded.
    now apply bytes_of_inj. }
  split; [exact Hs|]. intros H1 H2. now apply split_at_first_colon.
Qed.

Lemma basic_header_determines_credentials_witness :
  "user" +:+ ":" +:+ "pass" = "user" +:+ ":" +:+ "pass" /\
  (contains_char ":" "user" = false -> contains_char ":" "user" = false ->
   "user" = "user" /\ "pass" = "pass").
Proof.
  apply (basic_header_determines_credentials "user" "pass" "user" "pass").
  reflexivity.
Defined.

(** X15: a colon in the user name is neither rejected nor escaped: the
    provider built from the user name [u:p] and the password [q] is the
    provider built from the user name [u] and the password [p:q]. *)
Theorem basic_header_colon_is_ambiguous u p q :
  BasicAuthProvider.__init__ (u +:+ ":" +:+ p) q =
  BasicAuthProvider.__init__ u (p +:+ ":" +:+ q).
Proof.
  unfold BasicAuthProvider.__init__. cbv zeta.
  now rewrite !app_assoc_s.
Qed.

Lemma bytes_of_length (s : string) : length (Base64.bytes_of s) = String.length s.
Proof.
  unfold Base64.bytes_of. rewrite length_map.
  induction s as [|c s IH]; simpl; [reflexivity | now rewrite IH].
Qed.

Lemma get_contains n s c : String.get n s = Some c -> contains_char c s = true.
Proof.
  revert n. induction s as [|d s IH]; intros n; simpl; [discriminate|].
  destruct n as [|n].
  - intros [= ->]. now rewrite Ascii.eqb_refl.
  - intros H. rewrite (IH _ H). apply orb_true_r.
Qed.

Lemma contains_char_app c s t :
  contains_char c (s +:+ t) = contains_char c s || contains_char c t.
Proof.
  induction s as [|d s IH]; [reflexivity|].
  rewrite app_cons. simpl. now rewrite IH, orb_assoc.
Qed.

Lemma digit_in_alphabet n :
  contains_char (Base64.digit n) (Base64.alphabet +:+ "=") = true.
Proof.
  rewrite contains_char_app. unfold Base64.digit.
  destruct (String.get (N.to_nat n) Base64.alphabet) as [c|] eqn:Hg.
  - now rewrite (get_contains _ _ _ Hg).
  - apply orb_true_r.
Qed.

Lemma encode_one a :
  Base64.encode [a] =
    String (Base64.digit (a / 4)) (String (Base64.digit (a mod 4 * 16)) "==")%N.
Proof. reflexivity. Qed.

Lemma encode_two a b :
  Base64.encode [a; b] =
    String (Base64.digit (a / 4))
      (String (Base64.digit (a mod 4 * 16 + b / 16))
         (String (Base64.digit (b mod 16 * 4)) "="))%N.
Proof. reflexivity. Qed.

(** X16: encoding [n] bytes gives [4 * ceil(n / 3)] characters, each a
    digit of the standard alphabet or the padding sign [=]: the value is
    a single line, whatever the length of the credentials. *)
Theorem b64_output_shape (s : string) :
  String.length (Base64.standard_b64encode s) = 4 * ((String.length s + 2) / 3) /\
  (forall c, contains_char c (Base64.standard_b64encode s) = true ->
     contains_char c (Base64.alphabet +:+ "=") = true).
Proof.
  unfold Base64.standard_b64encode. rewrite <- (bytes_of_length s).
  generalize (Base64.bytes_of s) as bs.
  induction bs as [|a|a b|a b c rest [IHl IHc]] using list_ind3.
  - split; [reflexivity|]. intros c [=].
  - split; [reflexivity|]. intros c Hc. rewrite encode_one in Hc.
    cbn [contains_char] in Hc.
    repeat (apply orb_true_iff in Hc as [Hc|Hc];
            [apply Ascii.eqb_eq in Hc as <-;
             first [apply digit_in_alphabet | reflexivity]|]).
    discriminate.
  - split; [reflexivity|]. intros c Hc. rewrite encode_two in Hc.
    cbn [contains_char] in Hc.
    repeat (apply orb_true_iff in Hc as [Hc|Hc];
            [apply Ascii.eqb_eq in Hc as <-;
             first [apply digit_in_alphabet | reflexivity]|]).
    discriminate.
  - split.
    + rewrite encode_three. cbn [String.length length]. rewrite IHl.
      replace (S (S (S (length rest))) + 2) with ((length rest + 2) + 1 * 3) by lia.
      rewrite Nat.div_add by lia. lia.
    + intros d Hd. rewrite encode_three in Hd. cbn [contains_char] in Hd.
      repeat (apply orb_true_iff in Hd as [Hd|Hd];
              [apply Ascii.eqb_eq in Hd as <-; apply digit_in_alphabet|]).
      now apply IHc.
Qed.

(** ** Scopes and the installed token *)

Lemma join_unescaped (l1 l2 : list string) x y :
  Py.join " " (l1 ++ [x +:+ " " +:+ y] ++ l2) = Py.join " " (l1 ++ [x; y] ++ l2).
Proof.
  induction l1 as [|a l1 IH].
  - cbn [app]. destruct l2 as [|z l2]; cbn [Py.join].
    + reflexivity.
    + now rewrite !app_assoc_s.
  - destruct l1 as [|b l1]; cbn [app] in *.
    + change (Py.join " " (a :: (x +:+ " " +:+ y) :: l2))
        with (a +:+ " " +:+ Py.join " " ((x +:+ " " +:+ y) :: l2)).
      change (Py.join " " (a :: x :: y :: l2))
        with (a +:+ " " +:+ Py.join " " (x :: y :: l2)).
      now rewrite IH.
    + change (Py.join " " (a :: b :: l1 ++ (x +:+ " " +:+ y) :: l2))
        with (a +:+ " " +:+ Py.join " " (b :: l1 ++ (x +:+ " " +:+ y) :: l2)).
      change (Py.join " " (a :: b :: l1 ++ x :: y :: l2))
        with (a +:+ " " +:+ Py.join " " (b :: l1 ++ x :: y :: l2)).
      now rewrite IH.
Qed.

(** X17: scopes are not escaped: a scope that contains a space is taken
    for the two scopes it splits into. Construction with the one or
    with the two gives the same outcome, the same provider and the same
    calls, whatever the collaborators do. *)
Theorem scopes_are_not_escaped E hostname store client_id (l1 l2 : list string) x y :
  __init__ E hostname store client_id (l1 ++ [x +:+ " " +:+ y] ++ l2) =
  __init__ E hostname store client_id (l1 ++ [x; y] ++ l2).
Proof.
  unfold __init__. change SCOPE_DELIM with " ".
  now rewrite join_unescaped.
Qed.

(** X18: header and memory never disagree: when [add_headers] of the
    OAuth provider returns, the [Authorization] entry is [Bearer ]
    followed by the access token the provider holds after the call,
    rendered as Python's [str] renders it (so [Bearer None] for a
    provider holding no access token); when it raises, the dictionary
    is the caller's, untouched. *)
Theorem inject_installs_held_token E self (h : gmap string string) res self' h' tr :
  DatabricksOAuthProvider.add_headers E (self, h) [] = (res, (self', h'), tr) ->
  match res with
  | Returns _ =>
      h' = <["Authorization" := "Bearer " +:+ Py.str (_access_token self')]> h /\
      (_access_token self' = None -> h' !! "Authorization" = Some "Bearer None")
  | Raises _ => h' = h
  end.
Proof.
  rewrite add_headers_oauth.
  destruct (_update_token_if_expired E self []) as [[[[]|e] self0] tr0];
    intros [= <- <- <- <-]; [|reflexivity].
  split; [reflexivity|]. intros ->. apply lookup_insert_eq.
Qed.

Lemma inject_installs_held_token_witness :
  <["Authorization" := "Bearer A0"]> Example.headers =
    <["Authorization" := "Bearer " +:+ Py.str (_access_token Example.provider)]>
      Example.headers /\
  (_access_token Example.provider = None ->
   <["Authorization" := "Bearer A0"]> Example.headers !! "Authorization" =
     Some "Bearer None").
Proof.
  apply (inject_installs_held_token Example.quiet Example.provider Example.headers
           (Returns tt) Example.provider
           (<["Authorization" := "Bearer A0"]> Example.headers)
           [check_event Example.provider]).
  reflexivity.
Defined.
